(** * marconiclient.client: the Connection class

    A shallow embedding of [src/marconiclient/client.py] (Python 2) and the
    properties of its connection and request-execution layer.

    Python objects are mutable and every call may raise, so the methods of
    [Connection] are computations in a state-and-exception monad over a
    [World]: the one [Connection] object, the table of [httplib] connection
    objects made so far, and the log of calls that leave the process
    (authentication and network traffic).  State changes made before an
    exception is raised persist, as they do in Python. *)

From Stdlib Require Import ZArith String Ascii List Lia Bool DecimalString.
From stdpp Require Import base option list gmap strings.

Set Warnings "-register-all".
Local Open Scope Z_scope.
Local Open Scope string_scope.
Local Open Scope list_scope.

(** ** Python values *)

(** The values that flow through the client: [None], booleans, integers,
    byte strings, lists and dictionaries with string keys (what [json]
    produces and consumes).  A dictionary is an association list; the entry
    nearest the head is the one a subscript finds. *)
Inductive pyval : Type :=
| VNone
| VBool (b : bool)
| VInt (n : Z)
| VStr (s : string)
| VList (l : list pyval)
| VDict (d : list (string * pyval)).

(** Python truth value, as tested by [if not x]. *)
Definition truthy (v : pyval) : bool :=
  match v with
  | VNone => false
  | VBool b => b
  | VInt n => negb (Z.eqb n 0)
  | VStr s => negb (String.eqb s "")
  | VList l => match l with [] => false | _ => true end
  | VDict d => match d with [] => false | _ => true end
  end.

(** [isinstance(v, str)]. *)
Definition isinstance_str (v : pyval) : bool :=
  match v with VStr _ => true | _ => false end.

(** ** Exceptions *)

Inductive exn : Type :=
(** [ClientException(href=, method=, http_status=, http_response_content=)] *)
| ClientException (href : pyval) (method : string) (http_status : Z)
                  (http_response_content : string)
(** [ClientException(msg)], the one-argument form *)
| ClientExceptionMsg (fmt : string) (args : list pyval)
| NoSuchQueueError (queue_name : pyval)
| NameError (name : string)
| AttributeError (attr : string)
| TypeError (what : string)
| KeyError (key : string)
| ValueError (what : string)
| HTTPException (what : string)
(** raised by the guard [require_clientid] *)
| MissingClientIdError
(** raised by the guard [require_authenticated] *)
| NotAuthenticatedError
(** whatever the authentication collaborator raises *)
| AuthError (what : string).

(** [isinstance(ex, ClientException)], the test of [except ClientException].
    [NoSuchQueueError] is a refinement of [ClientException]. *)
Definition is_ClientException (e : exn) : bool :=
  match e with
  | ClientException _ _ _ _ | ClientExceptionMsg _ _ | NoSuchQueueError _ => true
  | _ => false
  end.

(** [ex.http_status]: set by the keyword form only. *)
Definition exn_http_status (e : exn) : option Z :=
  match e with
  | ClientException _ _ st _ => Some st
  | _ => None
  end.

Inductive res (A : Type) : Type :=
| Ok (a : A)
| Raise (e : exn).
Arguments Ok {A} a.
Arguments Raise {A} e.

(** ** Dynamic operations on values *)

(** [a + b] *)
Definition py_add (a b : pyval) : res pyval :=
  match a, b with
  | VStr x, VStr y => Ok (VStr (x +:+ y))
  | VInt x, VInt y => Ok (VInt (x + y))
  | VInt x, VBool y => Ok (VInt (x + Z.b2z y))
  | VBool x, VInt y => Ok (VInt (Z.b2z x + y))
  | VBool x, VBool y => Ok (VInt (Z.b2z x + Z.b2z y))
  | VList x, VList y => Ok (VList (x ++ y))
  | _, _ => Raise (TypeError "unsupported operand type(s) for +")
  end.

Fixpoint assoc {A : Type} (k : string) (d : list (string * A)) : option A :=
  match d with
  | [] => None
  | (k', v) :: d' => if String.eqb k k' then Some v else assoc k d'
  end.

(** [v[key]] for a string key *)
Definition py_getitem (v : pyval) (key : string) : res pyval :=
  match v with
  | VDict d => match assoc key d with
               | Some x => Ok x
               | None => Raise (KeyError key)
               end
  | VStr _ => Raise (TypeError "string indices must be integers, not str")
  | VList _ => Raise (TypeError "list indices must be integers, not str")
  | _ => Raise (TypeError "object has no attribute '__getitem__'")
  end.

Definition chars (s : string) : list pyval :=
  map (fun c => VStr (String c EmptyString)) (list_ascii_of_string s).

(** [iter(v)], all at once: the elements a [for] loop over [v] visits. *)
Definition py_iter (v : pyval) : res (list pyval) :=
  match v with
  | VList l => Ok l
  | VDict d => Ok (map (fun kv => VStr (fst kv)) d)
  | VStr s => Ok (chars s)
  | _ => Raise (TypeError "object is not iterable")
  end.

(** ** The world outside the interpreter *)

Record Request : Type := mkRequest {
  rq_method : string;
  rq_url : pyval;
  rq_body : string;
  rq_headers : pyval
}.

Record Response : Type := mkResponse {
  status : Z;
  getheaders : list (string * string);
  content : string
}.

(** [urlparse(url)]: the two fields the client reads. *)
Record ParseResult : Type := mkParseResult {
  scheme : string;
  netloc : string
}.

(** An [httplib] connection object: [HTTPConnection(host)] or
    [HTTPSConnection(host)].  [ca_certs] is the trust anchor the object was
    given, [sock_open] whether its socket is open, [pending] the request
    sent and not yet answered. *)
Record HTTPConn : Type := mkHTTPConn {
  secure : bool;
  host : string;
  ca_certs : pyval;
  sock_open : bool;
  pending : option Request
}.

Definition HTTPConnection (h : string) : HTTPConn :=
  mkHTTPConn false h VNone false None.
Definition HTTPSConnection (h : string) : HTTPConn :=
  mkHTTPConn true h VNone false None.

(** Calls that leave the process. *)
Inductive event : Type :=
| EvAuthenticate (auth_endpoint user key endpoint cacert : pyval)
| EvRequest (c : nat) (rq : Request)
| EvGetResponse (c : nat)
| EvRead (c : nat)
| EvClose (c : nat).

(** The [Connection] object.  The fields are the attributes [__init__]
    assigns; [attrs] holds the attributes assigned later
    ([self.queues_href = ...]), by name. *)
Record Connection : Type := mkConnection {
  _auth_endpoint : pyval;
  _user : pyval;
  _key : pyval;
  _token : pyval;
  _endpoint : pyval;
  _cacert : pyval;
  _client_id : pyval;
  attrs : gmap string pyval
}.

Record World : Type := mkWorld {
  self : Connection;
  conns : list HTTPConn;
  trace : list event
}.

(** ** The monad *)

Definition M (A : Type) : Type := World -> res A * World.

Definition ret {A} (a : A) : M A := fun w => (Ok a, w).
Definition raise {A} (e : exn) : M A := fun w => (Raise e, w).
Definition bind {A B} (c : M A) (k : A -> M B) : M B :=
  fun w => match c w with
           | (Ok a, w') => k a w'
           | (Raise e, w') => (Raise e, w')
           end.
Definition lift {A} (r : res A) : M A := fun w => (r, w).

(** [try: c  except ClientException as ex: h ex] *)
Definition try_except_ClientException {A} (c : M A) (h : exn -> M A) : M A :=
  fun w => match c w with
           | (Ok a, w') => (Ok a, w')
           | (Raise e, w') => if is_ClientException e then h e w'
                              else (Raise e, w')
           end.

Declare Scope py_scope.
Delimit Scope py_scope with py.
Notation "x <- c ;; k" := (bind c (fun x => k))
  (at level 20, c at level 99, k at level 200, only parsing) : py_scope.
Notation "c ;; k" := (bind c (fun _ => k))
  (at level 100, k at level 200, right associativity, only parsing) : py_scope.
Local Open Scope py_scope.

Definition get_self : M Connection := fun w => (Ok (self w), w).
Definition set_self (f : Connection -> Connection) : M unit :=
  fun w => (Ok tt, mkWorld (f (self w)) (conns w) (trace w)).
Definition log (e : event) : M unit :=
  fun w => (Ok tt, mkWorld (self w) (conns w) (trace w ++ [e])).

(** [self.name] for an attribute assigned outside [__init__] *)
Definition getattr (name : string) : M pyval :=
  s <- get_self ;;
  match attrs s !! name with
  | Some v => ret v
  | None => raise (AttributeError name)
  end.

(** [self.name = v] *)
Definition setattr (name : string) (v : pyval) : M unit :=
  set_self (fun s => mkConnection (_auth_endpoint s) (_user s) (_key s)
                       (_token s) (_endpoint s) (_cacert s) (_client_id s)
                       (<[name := v]> (attrs s))).

(** The names bound at module level in [client.py]: its imports and the
    class it defines. *)
Definition module_globals : list string :=
  [ "json"; "wraps"; "authenticate"; "proc_template"; "require_authenticated";
    "require_clientid"; "Queue"; "ClientException"; "urlparse"; "quote";
    "HTTPConnection"; "HTTPSConnection"; "Connection" ].

(** Reading a name that is neither a parameter nor assigned in the function:
    it is looked up in the module (no builtin has one of the names read this
    way below). *)
Definition load_global (name : string) : M unit :=
  if existsb (String.eqb name) module_globals then ret tt
  else raise (NameError name).

(** ** Resource handles *)

(** [Queue(conn, href=, name=, metadata=)].  The handle's reference to the
    session is the one [Connection] of the world. *)
Record Queue : Type := mkQueue {
  q_href : pyval;
  q_name : pyval;
  q_metadata : pyval
}.

(** ** httplib *)

Definition new_conn (c : HTTPConn) : M nat :=
  fun w => (Ok (length (conns w)), mkWorld (self w) (conns w ++ [c]) (trace w)).

Definition update_conn (c : nat) (f : HTTPConn -> HTTPConn) : M unit :=
  fun w => (Ok tt, mkWorld (self w) (alter f c (conns w)) (trace w)).

Definition get_conn (c : nat) : M HTTPConn :=
  fun w => match conns w !! c with
           | Some k => (Ok k, w)
           | None => (Raise (HTTPException "no such connection"), w)
           end.

(** [conn.request(method, url, body, headers=headers)]: connects the socket
    and sends the request. *)
Definition conn_request (c : nat) (rq : Request) : M unit :=
  log (EvRequest c rq) ;;
  update_conn c (fun k => mkHTTPConn (secure k) (host k) (ca_certs k) true (Some rq)).

(** [conn.close()] *)
Definition conn_close (c : nat) : M unit :=
  log (EvClose c) ;;
  update_conn c (fun k => mkHTTPConn (secure k) (host k) (ca_certs k) false None).

(** [dict(pairs)]: a later pair replaces an earlier one with the same key. *)
Definition dict (l : list (string * string)) : gmap string string :=
  foldl (fun m kv => <[fst kv := snd kv]> m) ∅ l.

(** ** The Connection class *)

Definition kwargs_get (kwargs : gmap string pyval) (k : string) : pyval :=
  default VNone (kwargs !! k).

(** [Connection.__init__(client_id, auth_endpoint, user, key, **kwargs)] *)
Definition __init__ (client_id auth_endpoint user key : pyval)
    (kwargs : gmap string pyval) : Connection :=
  {| _auth_endpoint := auth_endpoint;
     _user := user;
     _key := key;
     _token := kwargs_get kwargs "token";
     _endpoint := kwargs_get kwargs "endpoint";
     _cacert := kwargs_get kwargs "cacert";
     _client_id := client_id;
     attrs := ∅ |}.

(** The world right after the constructor: no connection made, nothing sent. *)
Definition fresh (s : Connection) : World := mkWorld s [] [].

Definition set_endpoint (v : pyval) : M unit :=
  set_self (fun s => mkConnection (_auth_endpoint s) (_user s) (_key s)
                       (_token s) v (_cacert s) (_client_id s) (attrs s)).

Definition set_token (v : pyval) : M unit :=
  set_self (fun s => mkConnection (_auth_endpoint s) (_user s) (_key s)
                       v (_endpoint s) (_cacert s) (_client_id s) (attrs s)).

(** The properties [_conn], [token], [auth_endpoint] and [endpoint]. *)
Definition _conn : M Connection := get_self.

Definition token : M pyval :=
  s <- get_self ;; ret (_token s).

Definition auth_endpoint : M pyval :=
  s <- get_self ;; ret (_auth_endpoint s).

Definition endpoint : M pyval :=
  s <- get_self ;; ret (_endpoint s).

(** A generator made by [get_queues]: not started yet, suspended at the
    [yield] with the elements the loop has still to visit, or finished. *)
Inductive get_queues_gen : Type :=
| GenCreated (headers : pyval)
| GenSuspended (rest : list pyval)
| GenFinished.

Section Client.

(** The collaborators of the class that live outside [client.py]. *)

(** [auth.authenticate(auth_endpoint, user, key, endpoint=, cacert=)]:
    returns [(endpoint, token)] or raises. *)
Variable authenticate : pyval -> pyval -> pyval -> pyval -> pyval -> res (pyval * pyval).
(** [misc.proc_template(template, **kwargs)] *)
Variable proc_template : pyval -> list (string * pyval) -> res pyval.
(** [json.dumps] and [json.loads]; the latter raises [ValueError] on a text
    that is not JSON. *)
Variable json_dumps : pyval -> string.
Variable json_loads : string -> option pyval.
(** [urlparse.urlparse] on a string *)
Variable urlparse : string -> ParseResult.
(** The service at the other end of the wire. *)
Variable server : Request -> Response.

(** [conn.getresponse()] *)
Definition conn_getresponse (c : nat) : M Response :=
  k <- get_conn c ;;
  match pending k with
  | Some rq =>
      log (EvGetResponse c) ;;
      update_conn c (fun k => mkHTTPConn (secure k) (host k) (ca_certs k)
                                (sock_open k) None) ;;
      ret (server rq)
  | None => raise (HTTPException "ResponseNotReady")
  end.

(** [response.read()] *)
Definition response_read (c : nat) (r : Response) : M string :=
  log (EvRead c) ;;
  ret (content r).

Definition py_json_loads (s : string) : M pyval :=
  match json_loads s with
  | Some v => ret v
  | None => raise (ValueError "No JSON object could be decoded")
  end.

(** [urlparse(v)]: a list or a dictionary cannot be a key of the parse
    cache, and any other value that is no string has no [find] method. *)
Definition py_urlparse (v : pyval) : M ParseResult :=
  match v with
  | VStr u => ret (urlparse u)
  | VList _ | VDict _ => raise (TypeError "unhashable type")
  | _ => raise (AttributeError "find")
  end.

(** [_load_homedoc_hrefs(self)] *)
Definition _load_homedoc_hrefs : M unit :=
  s <- get_self ;;
  v <- lift (py_add (_endpoint s) (VStr "/queues")) ;;
  setattr "queues_href" v ;;
  q <- getattr "queues_href" ;;
  v <- lift (py_add q (VStr "/{queue_name}")) ;;
  setattr "queue_href" v ;;
  q <- getattr "queue_href" ;;
  v <- lift (py_add q (VStr "/messages")) ;;
  setattr "messages_href" v ;;
  q <- getattr "messages_href" ;;
  v <- lift (py_add q (VStr "/{message_id}")) ;;
  setattr "message_href" v ;;
  q <- getattr "queues_href" ;;
  v <- lift (py_add q (VStr "/claims")) ;;
  setattr "_claims_href" v ;;
  q <- getattr "queues_href" ;;
  v <- lift (py_add q (VStr "/claims/{claim_id}")) ;;
  setattr "_claim_href" v ;;
  s <- get_self ;;
  v <- lift (py_add (_endpoint s) (VStr "/actions")) ;;
  setattr "actions_href" v ;;
  q <- getattr "actions_href" ;;
  v <- lift (py_add q (VStr "/{action_id}")) ;;
  setattr "action_href" v.

(** [connect(self, **kwargs)] *)
Definition connect : M unit :=
  s <- get_self ;;
  (if negb (truthy (_token s)) then
     log (EvAuthenticate (_auth_endpoint s) (_user s) (_key s)
            (_endpoint s) (_cacert s)) ;;
     p <- lift (authenticate (_auth_endpoint s) (_user s) (_key s)
                  (_endpoint s) (_cacert s)) ;;
     set_endpoint (fst p) ;;
     set_token (snd p)
   else ret tt) ;;
  _load_homedoc_hrefs.

(** [_http_connect(self)], the second definition of that name in the
    class, which replaces the first. *)
Definition _http_connect : M nat :=
  s <- get_self ;;
  parsed <- py_urlparse (_endpoint s) ;;
  if String.eqb (scheme parsed) "http" then
    new_conn (HTTPConnection (netloc parsed))
  else if String.eqb (scheme parsed) "https" then
    new_conn (HTTPSConnection (netloc parsed))
  else
    (* [repr(href)]: [href] is not bound in this method *)
    load_global "href" ;;
    raise (ClientExceptionMsg "Cannot handle protocol %s for href %s"
             [VStr (scheme parsed)]).

(** [if not isinstance(request_body, str):
        request_body = json.dumps(request_body)] *)
Definition serialize_body (request_body : pyval) : string :=
  match request_body with
  | VStr s => s
  | v => json_dumps v
  end.

(** [_perform_http(self, method, headers, href, request_body='')] *)
Definition _perform_http (method : string) (headers href request_body : pyval)
    : M (gmap string string * pyval) :=
  conn <- _http_connect ;;
  let request_body := serialize_body request_body in
  conn_request conn (mkRequest method href request_body headers) ;;
  response <- conn_getresponse conn ;;
  if negb (Z.eqb (status response / 100) 2) then
    body <- response_read conn response ;;
    raise (ClientException href method (status response) body)
  else
    let headers := getheaders response in
    response_body <- response_read conn response ;;
    response_body <-
      (if (0 <? String.length response_body)%nat
       then py_json_loads response_body
       else ret (VStr response_body)) ;;
    conn_close conn ;;
    ret (dict headers, response_body).

(** *** Guards *)

(** Modelled from the spec: [misc.require_clientid], which is not part of
    the sources at hand.  "clientId must be set (non-null/non-empty), else
    fails with a precondition error identifying the missing client
    identifier." *)
Definition require_clientid {A} (f : M A) : M A :=
  s <- get_self ;;
  if truthy (_client_id s) then f else raise MissingClientIdError.

(** Modelled from the spec: [misc.require_authenticated], which is not part
    of the sources at hand.  "The session must be Authenticated (token and
    endpoint both set), else fails with a not-authenticated error." *)
Definition require_authenticated {A} (f : M A) : M A :=
  s <- get_self ;;
  if truthy (_token s) && truthy (_endpoint s) then f
  else raise NotAuthenticatedError.

(** *** Queue operations *)

(** The handler of both [except ClientException as ex] clauses:
    [raise NoSuchQueueError(queue_name) if ex.http_status == 404 else ex] *)
Definition not_found_or_reraise {A} (queue_name : pyval) (ex : exn) : M A :=
  match exn_http_status ex with
  | Some st =>
      if Z.eqb st 404 then
        load_global "NoSuchQueueError" ;;
        raise (NoSuchQueueError queue_name)
      else raise ex
  | None => raise ex
  end.

(** [create_queue(self, queue_name, ttl, headers, **kwargs)] *)
Definition create_queue (queue_name ttl headers : pyval) : M Queue :=
  require_clientid (require_authenticated (
    tmpl <- getattr "queue_href" ;;
    href <- lift (proc_template tmpl [("queue_name", queue_name)]) ;;
    let body := VDict [("messages", VDict [("ttl", ttl)])] in
    _perform_http "PUT" headers href body ;;
    ret (mkQueue href queue_name body))).

(** [get_queue(self, queue_name, headers)] *)
Definition get_queue (queue_name headers : pyval) : M Queue :=
  require_clientid (require_authenticated (
    tmpl <- getattr "queue_href" ;;
    href <- lift (proc_template tmpl [("queue_name", queue_name)]) ;;
    r <- try_except_ClientException
           (_perform_http "GET" headers href (VStr ""))
           (not_found_or_reraise queue_name) ;;
    ret (mkQueue href queue_name (snd r)))).

(** [delete_queue(self, queue_name, headers)] *)
Definition delete_queue (queue_name headers : pyval) : M unit :=
  require_clientid (require_authenticated (
    tmpl <- getattr "queue_href" ;;
    href <- lift (proc_template tmpl [("queue_name", queue_name)]) ;;
    try_except_ClientException
      (tmpl <- getattr "queue_href" ;;
       href <- lift (proc_template tmpl [("queue_name", queue_name)]) ;;
       _perform_http "DELETE" headers href (VStr "") ;;
       ret tt)
      (not_found_or_reraise queue_name))).

(** [get_queue_metadata(self, queue_name, headers, **kwargs)].  The call
    [self._perform_http(conn, href, 'GET', headers=headers)] reads the
    unbound name [conn], and passes [headers] both by position and by
    keyword. *)
Definition get_queue_metadata (queue_name headers : pyval)
    : M (gmap string string * pyval) :=
  require_clientid (require_authenticated (
    tmpl <- getattr "_queue_href" ;;
    href <- lift (proc_template tmpl [("queue_name", queue_name)]) ;;
    load_global "conn" ;;
    raise (TypeError
      "_perform_http() got multiple values for keyword argument 'headers'"))).

(** [get_queues(self, headers)] is a generator function: the call runs the
    guards and makes the generator; the body runs when the generator is
    advanced. *)
Definition get_queues (headers : pyval) : M get_queues_gen :=
  require_clientid (require_authenticated (ret (GenCreated headers))).

(** The body up to the loop. *)
Definition get_queues_fetch (headers : pyval) : M (list pyval) :=
  href <- getattr "queues_href" ;;
  r <- _perform_http "GET" headers href (VStr "") ;;
  queues <- lift (py_getitem (snd r) "queues") ;;
  lift (py_iter queues).

(** One turn of the loop: the handle that is yielded. *)
Definition get_queues_yield (queue : pyval) : M Queue :=
  name <- lift (py_getitem queue "name") ;;
  href <- lift (py_getitem queue "href") ;;
  metadata <- lift (py_getitem queue "metadata") ;;
  ret (mkQueue href name metadata).

Definition get_queues_loop (rest : list pyval) (w : World)
    : res (option Queue) * get_queues_gen * World :=
  match rest with
  | [] => (Ok None, GenFinished, w)
  | queue :: rest' =>
      match get_queues_yield queue w with
      | (Ok q, w') => (Ok (Some q), GenSuspended rest', w')
      | (Raise e, w') => (Raise e, GenFinished, w')
      end
  end.

(** [next(g)]: [Ok (Some q)] when [q] is yielded, [Ok None] for
    [StopIteration]; a generator that raises is finished. *)
Definition gen_next (g : get_queues_gen) (w : World)
    : res (option Queue) * get_queues_gen * World :=
  match g with
  | GenCreated headers =>
      match get_queues_fetch headers w with
      | (Ok rest, w') => get_queues_loop rest w'
      | (Raise e, w') => (Raise e, GenFinished, w')
      end
  | GenSuspended rest => get_queues_loop rest w
  | GenFinished => (Ok None, GenFinished, w)
  end.

(** [list(g)]: advance the generator until it stops, at most [fuel] times.
    [None] when the fuel runs out first. *)
Fixpoint gen_list (fuel : nat) (g : get_queues_gen) (w : World)
    : option (res (list Queue) * World) :=
  match fuel with
  | O => None
  | S fuel' =>
      match gen_next g w with
      | (Ok None, _, w') => Some (Ok [], w')
      | (Ok (Some q), g', w') =>
          match gen_list fuel' g' w' with
          | Some (Ok qs, w'') => Some (Ok (q :: qs), w'')
          | other => other
          end
      | (Raise e, _, w') => Some (Raise e, w')
      end
  end.

End Client.

(** ** Concrete collaborators

    The theorems about the class hold for every authenticator, template
    expander, JSON codec, URL parser and service.  The definitions below are
    the ones the concrete runs use. *)

(** *** JSON texts *)

Module Json.

Definition dq : ascii := "034"%char.
Definition bs : ascii := "092"%char.

Definition Z_to_string (z : Z) : string :=
  NilEmpty.string_of_int (Z.to_int z).

Definition hex_digit (n : nat) : ascii :=
  if (n <? 10)%nat then ascii_of_nat (48 + n) else ascii_of_nat (87 + n).

Definition escape_char (c : ascii) : string :=
  let n := nat_of_ascii c in
  if Ascii.eqb c dq then String bs (String dq "")
  else if Ascii.eqb c bs then String bs (String bs "")
  else if (n =? 10)%nat then String bs "n"
  else if (n =? 13)%nat then String bs "r"
  else if (n =? 9)%nat then String bs "t"
  else if (n <? 32)%nat then
    String bs ("u00" +:+ String (hex_digit (n / 16)) (String (hex_digit (n mod 16)) ""))
  else String c "".

Fixpoint escape (s : string) : string :=
  match s with
  | EmptyString => ""
  | String c s' => escape_char c +:+ escape s'
  end.

Definition quote (s : string) : string :=
  String dq (escape s +:+ String dq "").

(** [json.dumps(v)] with the default separators, on ASCII text. *)
Fixpoint dumps (v : pyval) : string :=
  match v with
  | VNone => "null"
  | VBool true => "true"
  | VBool false => "false"
  | VInt n => Z_to_string n
  | VStr s => quote s
  | VList l =>
      "[" +:+
      (fix items (l : list pyval) : string :=
         match l with
         | [] => ""
         | x :: l' =>
             match l' with
             | [] => dumps x
             | _ => dumps x +:+ ", " +:+ items l'
             end
         end) l +:+ "]"
  | VDict d =>
      "{" +:+
      (fix members (d : list (string * pyval)) : string :=
         match d with
         | [] => ""
         | (k, x) :: d' =>
             match d' with
             | [] => quote k +:+ ": " +:+ dumps x
             | _ => quote k +:+ ": " +:+ dumps x +:+ ", " +:+ members d'
             end
         end) d +:+ "}"
  end.

(** The outcome of reading a prefix of a text. *)
Inductive parse (A : Type) : Type :=
| Parsed (a : A) (rest : list ascii)
| Invalid
| OutOfFuel.
Arguments Parsed {A} a rest.
Arguments Invalid {A}.
Arguments OutOfFuel {A}.

Definition is_ws (c : ascii) : bool :=
  let n := nat_of_ascii c in
  (n =? 32)%nat || (n =? 9)%nat || (n =? 10)%nat || (n =? 13)%nat.

Fixpoint skip_ws (s : list ascii) : list ascii :=
  match s with
  | c :: s' => if is_ws c then skip_ws s' else s
  | [] => []
  end.

Definition digit_val (c : ascii) : option Z :=
  let n := nat_of_ascii c in
  if (48 <=? n)%nat && (n <=? 57)%nat then Some (Z.of_nat (n - 48)) else None.

Definition hex_val (c : ascii) : option nat :=
  let n := nat_of_ascii c in
  if (48 <=? n)%nat && (n <=? 57)%nat then Some (n - 48)%nat
  else if (97 <=? n)%nat && (n <=? 102)%nat then Some (n - 87)%nat
  else if (65 <=? n)%nat && (n <=? 70)%nat then Some (n - 55)%nat
  else None.

(** Digits after the first one of a number. *)
Fixpoint parse_digits (acc : Z) (s : list ascii) : Z * list ascii :=
  match s with
  | c :: s' =>
      match digit_val c with
      | Some d => parse_digits (10 * acc + d)%Z s'
      | None => (acc, s)
      end
  | [] => (acc, [])
  end.

(** A fraction or an exponent makes the number a float, which [pyval] does
    not have: such a text is outside the domain of this model. *)
Definition starts_fraction (s : list ascii) : bool :=
  match s with
  | c :: _ => Ascii.eqb c "." || Ascii.eqb c "e" || Ascii.eqb c "E"
  | [] => false
  end.

Definition parse_nat (s : list ascii) : parse Z :=
  match s with
  | c :: s' =>
      match digit_val c with
      | Some d =>
          let '(n, rest) :=
            if (d =? 0)%Z then (0%Z, s') else parse_digits d s' in
          if starts_fraction rest then Invalid else Parsed n rest
      | None => Invalid
      end
  | [] => Invalid
  end.

(** The characters of a string literal after the opening quote. *)
Fixpoint parse_chars (s : list ascii) : parse string :=
  match s with
  | [] => Invalid
  | c :: s' =>
      if Ascii.eqb c dq then Parsed "" s'
      else if Ascii.eqb c bs then
        match s' with
        | e :: s'' =>
            let continue_with (x : ascii) (k : parse string) :=
              match k with
              | Parsed t rest => Parsed (String x t) rest
              | other => other
              end in
            if Ascii.eqb e dq then continue_with dq (parse_chars s'')
            else if Ascii.eqb e bs then continue_with bs (parse_chars s'')
            else if Ascii.eqb e "/" then continue_with "/"%char (parse_chars s'')
            else if Ascii.eqb e "b" then continue_with "008"%char (parse_chars s'')
            else if Ascii.eqb e "f" then continue_with "012"%char (parse_chars s'')
            else if Ascii.eqb e "n" then continue_with "010"%char (parse_chars s'')
            else if Ascii.eqb e "r" then continue_with "013"%char (parse_chars s'')
            else if Ascii.eqb e "t" then continue_with "009"%char (parse_chars s'')
            else if Ascii.eqb e "u" then
              match s'' with
              | a :: b :: c1 :: c2 :: r =>
                  match hex_val a, hex_val b, hex_val c1, hex_val c2 with
                  | Some 0%nat, Some 0%nat, Some h, Some l =>
                      continue_with (ascii_of_nat (16 * h + l)) (parse_chars r)
                  | _, _, _, _ => Invalid
                  end
              | _ => Invalid
              end
            else Invalid
        | [] => Invalid
        end
      else if (nat_of_ascii c <? 32)%nat then Invalid
      else
        match parse_chars s' with
        | Parsed t rest => Parsed (String c t) rest
        | other => other
        end
  end.

(** [d[k] = v] on an association list: a later member of an object replaces
    an earlier one with the same name. *)
Fixpoint dict_set (k : string) (v : pyval) (d : list (string * pyval))
    : list (string * pyval) :=
  match d with
  | [] => [(k, v)]
  | (k', v') :: d' =>
      if String.eqb k k' then (k, v) :: d' else (k', v') :: dict_set k v d'
  end.

Fixpoint parse_value (fuel : nat) (s : list ascii) : parse pyval :=
  match fuel with
  | O => OutOfFuel
  | S fuel' =>
      match skip_ws s with
      | [] => Invalid
      | c :: r =>
          if Ascii.eqb c "n" then
            match r with
            | "u"%char :: "l"%char :: "l"%char :: r' => Parsed VNone r'
            | _ => Invalid
            end
          else if Ascii.eqb c "t" then
            match r with
            | "r"%char :: "u"%char :: "e"%char :: r' => Parsed (VBool true) r'
            | _ => Invalid
            end
          else if Ascii.eqb c "f" then
            match r with
            | "a"%char :: "l"%char :: "s"%char :: "e"%char :: r' =>
                Parsed (VBool false) r'
            | _ => Invalid
            end
          else if Ascii.eqb c dq then
            match parse_chars r with
            | Parsed t r' => Parsed (VStr t) r'
            | Invalid => Invalid
            | OutOfFuel => OutOfFuel
            end
          else if Ascii.eqb c "-" then
            match parse_nat r with
            | Parsed n r' => Parsed (VInt (- n)) r'
            | Invalid => Invalid
            | OutOfFuel => OutOfFuel
            end
          else if Ascii.eqb c "[" then
            match skip_ws r with
            | "]"%char :: r' => Parsed (VList []) r'
            | _ => parse_elements fuel' [] r
            end
          else if Ascii.eqb c "{" then
            match skip_ws r with
            | "}"%char :: r' => Parsed (VDict []) r'
            | _ => parse_members fuel' [] r
            end
          else
            match parse_nat (c :: r) with
            | Parsed n r' => Parsed (VInt n) r'
            | Invalid => Invalid
            | OutOfFuel => OutOfFuel
            end
      end
  end

with parse_elements (fuel : nat) (acc : list pyval) (s : list ascii)
    : parse pyval :=
  match fuel with
  | O => OutOfFuel
  | S fuel' =>
      match parse_value fuel' s with
      | Parsed v r =>
          match skip_ws r with
          | c :: r' =>
              if Ascii.eqb c "," then parse_elements fuel' (acc ++ [v]) r'
              else if Ascii.eqb c "]" then Parsed (VList (acc ++ [v])) r'
              else Invalid
          | [] => Invalid
          end
      | other => other
      end
  end

with parse_members (fuel : nat) (acc : list (string * pyval)) (s : list ascii)
    : parse pyval :=
  match fuel with
  | O => OutOfFuel
  | S fuel' =>
      match skip_ws s with
      | c :: r =>
          if Ascii.eqb c dq then
            match parse_chars r with
            | Parsed k r1 =>
                match skip_ws r1 with
                | c1 :: r2 =>
                    if Ascii.eqb c1 ":" then
                      match parse_value fuel' r2 with
                      | Parsed v r3 =>
                          match skip_ws r3 with
                          | c3 :: r4 =>
                              if Ascii.eqb c3 "," then
                                parse_members fuel' (dict_set k v acc) r4
                              else if Ascii.eqb c3 "}" then
                                Parsed (VDict (dict_set k v acc)) r4
                              else Invalid
                          | [] => Invalid
                          end
                      | other => other
                      end
                    else Invalid
                | [] => Invalid
                end
            | Invalid => Invalid
            | OutOfFuel => OutOfFuel
            end
          else Invalid
      | [] => Invalid
      end
  end.

(** A whole text: one value, then nothing but white space. *)
Definition parse_text (s : string) : parse pyval :=
  let l := list_ascii_of_string s in
  match parse_value (2 * length l + 2) l with
  | Parsed v rest =>
      match skip_ws rest with
      | [] => Parsed v []
      | _ => Invalid
      end
  | other => other
  end.

(** [json.loads(s)]: [None] stands for the [ValueError] raised on a text
    that is not JSON. *)
Definition loads (s : string) : option pyval :=
  match parse_text s with
  | Parsed v _ => Some v
  | _ => None
  end.

End Json.

(** *** URLs *)

Module Url.

Definition is_scheme_char (c : ascii) : bool :=
  let n := nat_of_ascii c in
  ((97 <=? n)%nat && (n <=? 122)%nat) || ((65 <=? n)%nat && (n <=? 90)%nat)
  || ((48 <=? n)%nat && (n <=? 57)%nat)
  || Ascii.eqb c "+" || Ascii.eqb c "-" || Ascii.eqb c ".".

Definition is_digit (c : ascii) : bool :=
  let n := nat_of_ascii c in (48 <=? n)%nat && (n <=? 57)%nat.

Definition lower (c : ascii) : ascii :=
  let n := nat_of_ascii c in
  if (65 <=? n)%nat && (n <=? 90)%nat then ascii_of_nat (n + 32) else c.

(** [url.find(':')]: the text before the first colon and the text after it. *)
Fixpoint split_colon (s : list ascii) : option (list ascii * list ascii) :=
  match s with
  | [] => None
  | c :: s' =>
      if Ascii.eqb c ":" then Some ([], s')
      else match split_colon s' with
           | Some (a, b) => Some (c :: a, b)
           | None => None
           end
  end.

(** [_splitnetloc]: the text up to the first of [/], [?] and [#]. *)
Fixpoint take_netloc (s : list ascii) : list ascii :=
  match s with
  | [] => []
  | c :: s' =>
      if Ascii.eqb c "/" || Ascii.eqb c "?" || Ascii.eqb c "#" then []
      else c :: take_netloc s'
  end.

Definition netloc_of (s : list ascii) : list ascii :=
  match s with
  | "/"%char :: "/"%char :: s' => take_netloc s'
  | _ => []
  end.

(** [urlparse.urlsplit] of Python 2.7, for the scheme and the network
    location. *)
Definition urlparse (url : string) : ParseResult :=
  let u := list_ascii_of_string url in
  match split_colon u with
  | Some (c :: a, rest) =>
      let pre := c :: a in
      if forallb is_scheme_char pre
         && (String.eqb (string_of_list_ascii pre) "http"
             || match rest with [] => true | _ => negb (forallb is_digit rest) end)
      then mkParseResult (string_of_list_ascii (map lower pre))
             (string_of_list_ascii (netloc_of rest))
      else mkParseResult "" (string_of_list_ascii (netloc_of u))
  | _ => mkParseResult "" (string_of_list_ascii (netloc_of u))
  end.

End Url.

(** *** Href templating *)

Module Misc.

(** The text up to the closing brace, and the text after it. *)
Fixpoint split_brace (s : list ascii) : option (list ascii * list ascii) :=
  match s with
  | [] => None
  | c :: s' =>
      if Ascii.eqb c "}" then Some ([], s')
      else match split_brace s' with
           | Some (a, b) => Some (c :: a, b)
           | None => None
           end
  end.

Fixpoint expand (fuel : nat) (s : list ascii) (substs : list (string * pyval))
    : res (list ascii) :=
  match fuel with
  | O => Raise (ValueError "template too long")
  | S fuel' =>
      match s with
      | [] => Ok []
      | c :: s' =>
          if Ascii.eqb c "{" then
            match split_brace s' with
            | Some (name, rest) =>
                match assoc (string_of_list_ascii name) substs with
                | Some (VStr v) =>
                    match expand fuel' rest substs with
                    | Ok t => Ok (list_ascii_of_string v ++ t)%list
                    | Raise e => Raise e
                    end
                | Some _ => Raise (TypeError "substitution is not a string")
                | None => Raise (KeyError (string_of_list_ascii name))
                end
            | None => Raise (ValueError "unmatched '{' in template")
            end
          else
            match expand fuel' s' substs with
            | Ok t => Ok (c :: t)
            | Raise e => Raise e
            end
      end
  end.

(** Modelled from the spec: [misc.proc_template], which is not part of the
    sources at hand.  "Pure function mapping (template, substitutions) to a
    concrete path string, where the template contains {name}-style
    placeholders.  Fails if a referenced placeholder has no corresponding
    substitution." *)
Definition proc_template (template : pyval) (substs : list (string * pyval))
    : res pyval :=
  match template with
  | VStr t =>
      let l := list_ascii_of_string t in
      match expand (S (length l)) l substs with
      | Ok r => Ok (VStr (string_of_list_ascii r))
      | Raise e => Raise e
      end
  | _ => Raise (TypeError "template is not a string")
  end.

End Misc.

(** *** A test double of the service and of the authenticator *)

Module Mock.

Definition endpoint_url : string := "http://localhost:8888/v1".

(** An authenticator that grants every request: it keeps the endpoint it is
    given, if any, and hands out a fixed token. *)
Definition authenticate (auth_endpoint user key endpoint cacert : pyval)
    : res (pyval * pyval) :=
  Ok (if truthy endpoint then endpoint else VStr endpoint_url,
      VStr "token-1").

Definition queue_a : pyval :=
  VDict [("name", VStr "a"); ("href", VStr "/queues/a"); ("metadata", VDict [])].
Definition queue_b : pyval :=
  VDict [("name", VStr "b"); ("href", VStr "/queues/b"); ("metadata", VDict [])].
Definition two_queues : pyval :=
  VDict [("queues", VList [queue_a; queue_b])].

(** A service with two queues, [a] and [b].  It creates what it is asked to
    create, does not know the queue [missing], fails on the queue [x], and
    answers with a text that is not JSON for the queue [broken]. *)
Definition server (rq : Request) : Response :=
  let url := match rq_url rq with VStr u => u | _ => "" end in
  if String.eqb url (endpoint_url +:+ "/queues/broken") then
    mkResponse 200 [("content-type", "text/html")] "{"
  else if String.eqb url (endpoint_url +:+ "/queues/missing") then
    mkResponse 404 [] "queue not found"
  else if String.eqb url (endpoint_url +:+ "/queues/x") then
    mkResponse 500 [] "internal error"
  else if String.eqb (rq_method rq) "PUT" then
    mkResponse 201 [] ""
  else if String.eqb (rq_method rq) "DELETE" then
    mkResponse 204 [] ""
  else if String.eqb url (endpoint_url +:+ "/queues") then
    mkResponse 200 [("content-type", "application/json")]
      (Json.dumps two_queues)
  else
    mkResponse 200 [("content-type", "application/json")]
      (Json.dumps (VDict [("messages", VDict [("ttl", VInt 60)])])).

(** [Connection('client-1', 'http://auth.example/v1', 'user', 'key')] *)
Definition session : Connection :=
  __init__ (VStr "client-1") (VStr "http://auth.example/v1") (VStr "user")
    (VStr "key") ∅.

(** The same with [cacert='/etc/ssl/ca.pem'] and an [https] endpoint. *)
Definition secure_session : Connection :=
  __init__ (VStr "client-1") (VStr "https://auth.example/v1") (VStr "user")
    (VStr "key")
    (<["cacert" := VStr "/etc/ssl/ca.pem"]>
       (<["endpoint" := VStr "https://localhost:8888/v1"]> ∅)).

(** The same as [session] with [token='token-0'] and no endpoint. *)
Definition token_only_session : Connection :=
  __init__ (VStr "client-1") (VStr "http://auth.example/v1") (VStr "user")
    (VStr "key") (<["token" := VStr "token-0"]> ∅).

(** [session] after [connect()]. *)
Definition connected : World := snd (connect authenticate (fresh session)).

Definition perform_http :=
  _perform_http Json.dumps Json.loads Url.urlparse server.
Definition create_queue :=
  create_queue Misc.proc_template Json.dumps Json.loads Url.urlparse server.
Definition get_queue :=
  get_queue Misc.proc_template Json.dumps Json.loads Url.urlparse server.
Definition delete_queue :=
  delete_queue Misc.proc_template Json.dumps Json.loads Url.urlparse server.
Definition get_queue_metadata := get_queue_metadata Misc.proc_template.
Definition gen_next := gen_next Json.dumps Json.loads Url.urlparse server.
Definition gen_list := gen_list Json.dumps Json.loads Url.urlparse server.

End Mock.

(** Requests of the concrete runs: no extra headers, and the URL of a path
    under the endpoint of the test double. *)
Definition no_headers : pyval := VDict [].
Definition url_of (path : string) : pyval := VStr (Mock.endpoint_url +:+ path).

(** Further sessions and services of the concrete runs: a session given a
    token and an endpoint of another scheme, then connected; a session given
    a token and an endpoint and never connected; an authenticator that
    denies; a service that is busy, one that answers with empty bodies, and
    one whose listing has an element without a name. *)
Definition ftp_session : Connection :=
  __init__ (VStr "client-1") (VStr "http://auth.example/v1") (VStr "user")
    (VStr "key")
    (<["token" := VStr "token-0"]> (<["endpoint" := VStr "ftp://localhost/v1"]> ∅)).

Definition ftp_connected : World :=
  snd (connect Mock.authenticate (fresh ftp_session)).

Definition preset_kwargs : gmap string pyval :=
  <["token" := VStr "token-0"]> (<["endpoint" := VStr Mock.endpoint_url]> ∅).

Definition deny (auth_endpoint user key endpoint cacert : pyval)
    : res (pyval * pyval) :=
  Raise (AuthError "denied").

Definition busy_server (rq : Request) : Response :=
  mkResponse 503 [] "busy".

Definition silent_server (rq : Request) : Response :=
  mkResponse 200 [] "".

Definition nameless_queue : pyval :=
  VDict [("href", VStr "/queues/c"); ("metadata", VDict [])].

Definition flawed_listing : pyval :=
  VDict [("queues", VList [Mock.queue_a; nameless_queue; Mock.queue_b])].

Definition flawed_server (rq : Request) : Response :=
  mkResponse 200 [] (Json.dumps flawed_listing).

(** ** Vocabulary of the statements *)

(** The schemes the transport selector knows. *)
Definition supported_scheme (s : string) : Prop :=
  s = "http" \/ s = "https".

(** The connection object the transport selector makes for a parsed endpoint
    with a supported scheme. *)
Definition selected (p : ParseResult) : HTTPConn :=
  mkHTTPConn (String.eqb (scheme p) "https") (netloc p) VNone false None.

(** The world after one request and its response went over a new connection
    [k]: the connection is in the table, closed or still open, and the
    traffic is in the log. *)
Definition exchanged (k : HTTPConn) (rq : Request) (closed : bool) (w : World)
    : World :=
  let c := length (conns w) in
  mkWorld (self w)
    (conns w ++ [mkHTTPConn (secure k) (host k) (ca_certs k) (negb closed) None])
    (trace w ++ [EvRequest c rq; EvGetResponse c; EvRead c]
             ++ (if closed then [EvClose c] else [])).

(** The number of sockets that are open. *)
Definition open_sockets (w : World) : nat :=
  length (filter (fun k => sock_open k = true) (conns w)).

Definition is_authenticate (e : event) : bool :=
  match e with EvAuthenticate _ _ _ _ _ => true | _ => false end.

(** The number of calls to the authenticator so far. *)
Definition auth_calls (w : World) : nat :=
  length (filter (fun e => is_authenticate e = true) (trace w)).

(** The session passes both guards. *)
Definition guards_pass (w : World) : Prop :=
  truthy (_client_id (self w)) = true /\
  truthy (_token (self w)) = true /\
  truthy (_endpoint (self w)) = true.

(** The handle [get_queues] makes of one element of the list. *)
Definition handle_of (e : pyval) (q : Queue) : Prop :=
  py_getitem e "name" = Ok (q_name q) /\
  py_getitem e "href" = Ok (q_href q) /\
  py_getitem e "metadata" = Ok (q_metadata q).

(** A computation that relates every world to the one it leaves. *)
Definition preserves {A} (R : World -> World -> Prop) (c : M A) : Prop :=
  forall w, R w (snd (c w)).

(** Everything but the attributes assigned after construction. *)
Definition same_but_attrs (w w' : World) : Prop :=
  conns w' = conns w /\ trace w' = trace w /\
  _auth_endpoint (self w') = _auth_endpoint (self w) /\
  _user (self w') = _user (self w) /\
  _key (self w') = _key (self w) /\
  _token (self w') = _token (self w) /\
  _endpoint (self w') = _endpoint (self w) /\
  _cacert (self w') = _cacert (self w) /\
  _client_id (self w') = _client_id (self w).

(** The attribute [name] is as it was. *)
Definition same_attr (name : string) (w w' : World) : Prop :=
  attrs (self w') !! name = attrs (self w) !! name.

(** The world after [self.name = v]. *)
Definition with_attr (name : string) (v : pyval) (w : World) : World :=
  snd (setattr name v w).

(** The world after the eight assignments of [_load_homedoc_hrefs] on a
    session whose endpoint is the string [ep]. *)
Definition with_templates (ep : string) (w : World) : World :=
  let w1 := with_attr "queues_href" (VStr (ep +:+ "/queues")) w in
  let w2 := with_attr "queue_href"
              (VStr ((ep +:+ "/queues") +:+ "/{queue_name}")) w1 in
  let w3 := with_attr "messages_href"
              (VStr (((ep +:+ "/queues") +:+ "/{queue_name}") +:+ "/messages")) w2 in
  let w4 := with_attr "message_href"
              (VStr ((((ep +:+ "/queues") +:+ "/{queue_name}") +:+ "/messages")
                       +:+ "/{message_id}")) w3 in
  let w5 := with_attr "_claims_href"
              (VStr ((ep +:+ "/queues") +:+ "/claims")) w4 in
  let w6 := with_attr "_claim_href"
              (VStr ((ep +:+ "/queues") +:+ "/claims/{claim_id}")) w5 in
  let w7 := with_attr "actions_href" (VStr (ep +:+ "/actions")) w6 in
  with_attr "action_href" (VStr ((ep +:+ "/actions") +:+ "/{action_id}")) w7.

(** The session object is as it was. *)
Definition same_session (w w' : World) : Prop := self w' = self w.

(** The client id and the credentials are as they were. *)
Definition same_credentials (w w' : World) : Prop :=
  _client_id (self w') = _client_id (self w) /\
  _auth_endpoint (self w') = _auth_endpoint (self w) /\
  _user (self w') = _user (self w) /\
  _key (self w') = _key (self w) /\
  _cacert (self w') = _cacert (self w).

(** Whether a result is an exception. *)
Definition raised {A} (r : res A) : bool :=
  match r with
  | Ok _ => false
  | Raise _ => true
  end.

(** * Properties *)

(** ** Lists of connections *)

Lemma lookup_last {A} (l : list A) (x : A) : (l ++ [x]) !! length l = Some x.
Proof. induction l as [|a l IH]; [reflexivity | exact IH]. Qed.

Lemma alter_last {A} (f : A -> A) (l : list A) (x : A) :
  alter f (length l) (l ++ [x]) = l ++ [f x].
Proof.
  induction l as [|a l IH]; [reflexivity |].
  cbn. f_equal. exact IH.
Qed.

Ltac rewrite_alter_last :=
  match goal with
  | |- context [alter ?f (length ?l) (?l ++ [?x])] =>
      rewrite (alter_last f l x)
  end.

(** ** Status codes *)

Lemma status_2xx (st : Z) : Z.eqb (st / 100) 2 = true <-> 200 <= st <= 299.
Proof.
  rewrite Z.eqb_eq. split.
  - intros H.
    pose proof (Z.mul_div_le st 100 ltac:(lia)).
    pose proof (Z.mul_succ_div_gt st 100 ltac:(lia)). lia.
  - intros H. symmetry. apply (Z.div_unique st 100 2 (st - 200)); lia.
Qed.

Lemma status_not_2xx (st : Z) :
  Z.eqb (st / 100) 2 = false <-> ~ (200 <= st <= 299).
Proof.
  rewrite <- status_2xx. destruct (Z.eqb (st / 100) 2); split; congruence.
Qed.

(** ** Names *)

Lemma load_global_href : load_global "href" = raise (NameError "href").
Proof. reflexivity. Qed.

Lemma load_global_conn : load_global "conn" = raise (NameError "conn").
Proof. reflexivity. Qed.

Lemma load_global_NoSuchQueueError :
  load_global "NoSuchQueueError" = raise (NameError "NoSuchQueueError").
Proof. reflexivity. Qed.

Section ClientProperties.

Variable authenticate : pyval -> pyval -> pyval -> pyval -> pyval -> res (pyval * pyval).
Variable proc_template : pyval -> list (string * pyval) -> res pyval.
Variable json_dumps : pyval -> string.
Variable json_loads : string -> option pyval.
Variable urlparse : string -> ParseResult.
Variable server : Request -> Response.

(** ** The transport selector *)

Lemma http_connect_supported (w : World) (u : string) :
  _endpoint (self w) = VStr u ->
  supported_scheme (scheme (urlparse u)) ->
  _http_connect urlparse w =
    (Ok (length (conns w)),
     mkWorld (self w) (conns w ++ [selected (urlparse u)]) (trace w)).
Proof.
  intros Hep Hs.
  unfold _http_connect, bind, get_self, py_urlparse, selected.
  rewrite Hep. unfold ret.
  destruct Hs as [Hs | Hs]; rewrite Hs; reflexivity.
Qed.

(** ** The request executor *)

(** What one call of [_perform_http] does, on an endpoint with a supported
    scheme: the result and the world it leaves. *)
Lemma perform_http_run (method : string) (headers href request_body : pyval)
    (w : World) (u : string) :
  _endpoint (self w) = VStr u ->
  supported_scheme (scheme (urlparse u)) ->
  let k := selected (urlparse u) in
  let rq := mkRequest method href (serialize_body json_dumps request_body) headers in
  let r := server rq in
  _perform_http json_dumps json_loads urlparse server
      method headers href request_body w =
    if Z.eqb (status r / 100) 2 then
      if (0 <? String.length (content r))%nat then
        match json_loads (content r) with
        | Some v => (Ok (dict (getheaders r), v), exchanged k rq true w)
        | None => (Raise (ValueError "No JSON object could be decoded"),
                   exchanged k rq false w)
        end
      else (Ok (dict (getheaders r), VStr (content r)), exchanged k rq true w)
    else (Raise (ClientException href method (status r) (content r)),
          exchanged k rq false w).
Proof.
  intros Hep Hs k rq r.
  unfold _perform_http. unfold bind at 1.
  rewrite (http_connect_supported w u Hep Hs). fold k. fold rq.
  unfold conn_request, conn_getresponse, get_conn, update_conn, log, bind, ret.
  cbn [self conns trace].
  rewrite_alter_last. rewrite lookup_last. cbn [pending self conns trace].
  rewrite_alter_last. cbn [secure host ca_certs sock_open].
  fold r.
  unfold exchanged, response_read, conn_close, py_json_loads, raise, log,
    update_conn, bind, ret.
  cbn [self conns trace].
  destruct (Z.eqb (status r / 100) 2); cbn [negb].
  - destruct (0 <? String.length (content r))%nat.
    + destruct (json_loads (content r)) as [v|]; cbn [self conns trace].
      * rewrite_alter_last. rewrite <- !app_assoc. reflexivity.
      * rewrite <- !app_assoc. rewrite app_nil_r. reflexivity.
    + cbn [self conns trace]. rewrite_alter_last. rewrite <- !app_assoc.
      reflexivity.
  - cbn [self conns trace]. rewrite <- !app_assoc. rewrite app_nil_r.
    reflexivity.
Qed.

Lemma length_pos_nonempty (s : string) :
  (0 <? String.length s)%nat = true <-> s <> "".
Proof.
  destruct s as [|c s]; cbn; split; intros H; congruence.
Qed.

Lemma length_zero_empty (s : string) :
  (0 <? String.length s)%nat = false <-> s = "".
Proof.
  destruct s as [|c s]; cbn; split; intros H; congruence.
Qed.

(** C1 (as amended): on an endpoint the transport selector can serve,
    [_perform_http] raises [ClientException] exactly on the statuses outside
    [200, 299], and the exception carries the request's href and method, the
    response's status and its body as read.  On a status inside the range it
    returns the header mapping with the body: the empty string for an empty
    body, the decoded value for a body that is a JSON text.  When the body of
    such a response is not empty and not a JSON text, the decoder's
    [ValueError] comes out instead. *)
Theorem perform_http_status_classification
    (method : string) (headers href request_body : pyval) (w : World) (u : string) :
  _endpoint (self w) = VStr u ->
  supported_scheme (scheme (urlparse u)) ->
  let r := server (mkRequest method href
                     (serialize_body json_dumps request_body) headers) in
  let outcome := fst (_perform_http json_dumps json_loads urlparse server
                        method headers href request_body w) in
  (200 <= status r <= 299 -> content r = "" ->
     outcome = Ok (dict (getheaders r), VStr ""))
  /\ (200 <= status r <= 299 -> content r <> "" ->
      forall v, json_loads (content r) = Some v ->
      outcome = Ok (dict (getheaders r), v))
  /\ (200 <= status r <= 299 -> content r <> "" ->
      json_loads (content r) = None ->
      outcome = Raise (ValueError "No JSON object could be decoded"))
  /\ (~ (200 <= status r <= 299) ->
      outcome = Raise (ClientException href method (status r) (content r))).
Proof.
  intros Hep Hs r outcome. subst outcome.
  rewrite (perform_http_run method headers href request_body w u Hep Hs).
  fold r. repeat split.
  - intros Hst Hc. apply status_2xx in Hst. rewrite Hst.
    rewrite (proj2 (length_zero_empty _) Hc). rewrite Hc. reflexivity.
  - intros Hst Hc v Hv. apply status_2xx in Hst. rewrite Hst.
    rewrite (proj2 (length_pos_nonempty _) Hc), Hv. reflexivity.
  - intros Hst Hc Hv. apply status_2xx in Hst. rewrite Hst.
    rewrite (proj2 (length_pos_nonempty _) Hc), Hv. reflexivity.
  - intros Hst. apply status_not_2xx in Hst. rewrite Hst. reflexivity.
Qed.

(** ** Connections are closed on one path only *)

Lemma open_sockets_exchanged (k : HTTPConn) (rq : Request) (closed : bool)
    (w : World) :
  open_sockets (exchanged k rq closed w) =
    (open_sockets w + (if closed then 0 else 1))%nat.
Proof.
  unfold open_sockets, exchanged. cbn [conns].
  rewrite filter_app, length_app. f_equal.
  destruct closed; reflexivity.
Qed.

(** The path that returns closes the connection it made. *)
Lemma perform_http_success_closes
    (method : string) (headers href request_body : pyval) (w : World) (u : string) :
  _endpoint (self w) = VStr u ->
  supported_scheme (scheme (urlparse u)) ->
  forall x w',
  _perform_http json_dumps json_loads urlparse server
    method headers href request_body w = (Ok x, w') ->
  open_sockets w' = open_sockets w.
Proof.
  intros Hep Hs x w'.
  rewrite (perform_http_run method headers href request_body w u Hep Hs).
  repeat match goal with
         | |- context [if ?b then _ else _] => destruct b
         | |- context [match json_loads ?s with _ => _ end] =>
             destruct (json_loads s)
         end;
    intros H; inversion H; subst;
    rewrite open_sockets_exchanged; lia.
Qed.

(** C3: what the code does on the error path.  When the status is outside
    [200, 299], [_perform_http] raises [ClientException] and the connection
    it made is left with its socket open: one more socket is open after the
    call than before it. *)
Theorem perform_http_error_leaves_socket_open
    (method : string) (headers href request_body : pyval) (w : World) (u : string) :
  _endpoint (self w) = VStr u ->
  supported_scheme (scheme (urlparse u)) ->
  let r := server (mkRequest method href
                     (serialize_body json_dumps request_body) headers) in
  ~ (200 <= status r <= 299) ->
  let run := _perform_http json_dumps json_loads urlparse server
               method headers href request_body w in
  fst run = Raise (ClientException href method (status r) (content r)) /\
  sock_open <$> conns (snd run) !! length (conns w) = Some true /\
  open_sockets (snd run) = S (open_sockets w).
Proof.
  intros Hep Hs r Hst run. subst run.
  rewrite (perform_http_run method headers href request_body w u Hep Hs).
  fold r. apply status_not_2xx in Hst. rewrite Hst. cbn [fst snd].
  split; [reflexivity | split].
  - unfold exchanged. cbn [conns]. rewrite lookup_last. reflexivity.
  - rewrite open_sockets_exchanged. lia.
Qed.

(** ** Guards *)

Lemma guards_pass_run {A} (f : M A) (w : World) :
  guards_pass w -> require_clientid (require_authenticated f) w = f w.
Proof.
  intros (Hc & Ht & He).
  unfold require_clientid, require_authenticated, bind, get_self.
  rewrite Hc, Ht, He. reflexivity.
Qed.

Lemma guards_fail_run {A} (f : M A) (w : World) :
  truthy (_client_id (self w)) = false \/ truthy (_token (self w)) = false ->
  require_clientid (require_authenticated f) w =
    (Raise (if truthy (_client_id (self w)) then NotAuthenticatedError
            else MissingClientIdError), w).
Proof.
  intros H.
  unfold require_clientid, require_authenticated, bind, get_self.
  destruct (truthy (_client_id (self w))); [| reflexivity].
  destruct H as [H | H]; [discriminate |]. rewrite H. reflexivity.
Qed.

(** C4: every queue operation on a session whose client id is unset raises
    the missing-client-id error, whatever the token; on a session with a
    client id and no token it raises the not-authenticated error.  In both
    cases the world is as it was: no connection was made and nothing was
    sent. *)
Theorem guards_fail_before_io (queue_name ttl headers : pyval) (w : World) :
  truthy (_client_id (self w)) = false \/ truthy (_token (self w)) = false ->
  let e := if truthy (_client_id (self w)) then NotAuthenticatedError
           else MissingClientIdError in
  create_queue proc_template json_dumps json_loads urlparse server
      queue_name ttl headers w = (Raise e, w)
  /\ get_queue proc_template json_dumps json_loads urlparse server
      queue_name headers w = (Raise e, w)
  /\ get_queues headers w = (Raise e, w)
  /\ delete_queue proc_template json_dumps json_loads urlparse server
      queue_name headers w = (Raise e, w)
  /\ get_queue_metadata proc_template queue_name headers w = (Raise e, w).
Proof.
  intros H e. subst e.
  unfold create_queue, get_queue, get_queues, delete_queue, get_queue_metadata.
  repeat split; apply guards_fail_run; exact H.
Qed.

(** ** Frames: what a computation leaves alone *)

Lemma preserves_bind {A B} (R : World -> World -> Prop) (c : M A) (k : A -> M B) :
  (forall w, R w w) ->
  (forall w1 w2 w3, R w1 w2 -> R w2 w3 -> R w1 w3) ->
  preserves R c -> (forall a, preserves R (k a)) -> preserves R (bind c k).
Proof.
  intros Hrefl Htrans Hc Hk w. unfold bind.
  specialize (Hc w). destruct (c w) as [[a | e] w1]; cbn [snd] in *.
  - eapply Htrans; [exact Hc | apply Hk].
  - exact Hc.
Qed.

Lemma preserves_pure {A} (R : World -> World -> Prop) (c : M A) :
  (forall w, R w w) -> (forall w, snd (c w) = w) -> preserves R c.
Proof. intros Hrefl Hc w. rewrite Hc. apply Hrefl. Qed.

Lemma getattr_pure (name : string) (w : World) : snd (getattr name w) = w.
Proof.
  unfold getattr, bind, get_self.
  destruct (attrs (self w) !! name); reflexivity.
Qed.

Lemma same_but_attrs_refl (w : World) : same_but_attrs w w.
Proof. unfold same_but_attrs. repeat split; reflexivity. Qed.

Lemma same_but_attrs_trans (w1 w2 w3 : World) :
  same_but_attrs w1 w2 -> same_but_attrs w2 w3 -> same_but_attrs w1 w3.
Proof.
  unfold same_but_attrs. intros H1 H2.
  repeat match goal with H : _ /\ _ |- _ => destruct H end.
  repeat split; congruence.
Qed.

Lemma same_attr_trans (name : string) (w1 w2 w3 : World) :
  same_attr name w1 w2 -> same_attr name w2 w3 -> same_attr name w1 w3.
Proof. unfold same_attr. congruence. Qed.

Ltac frame_steps Hrefl Htrans :=
  repeat first
    [ apply (preserves_pure _ _ Hrefl); intros ?;
      first [ apply getattr_pure | reflexivity ]
    | apply (preserves_bind _ _ _ Hrefl Htrans); [| intros ? ] ].

Lemma load_homedoc_hrefs_frame : preserves same_but_attrs _load_homedoc_hrefs.
Proof.
  unfold _load_homedoc_hrefs.
  frame_steps same_but_attrs_refl same_but_attrs_trans;
    intros w; unfold same_but_attrs; repeat split; reflexivity.
Qed.

Lemma load_homedoc_hrefs_same_attr (name : string) :
  ~ In name [ "queues_href"; "queue_href"; "messages_href"; "message_href";
              "_claims_href"; "_claim_href"; "actions_href"; "action_href" ] ->
  preserves (same_attr name) _load_homedoc_hrefs.
Proof.
  intros Hname. unfold _load_homedoc_hrefs.
  frame_steps (fun w => eq_refl (attrs (self w) !! name)) (same_attr_trans name);
    intros w; unfold same_attr, setattr, set_self; cbn [snd self attrs];
    apply lookup_insert_ne; intros <-; apply Hname; cbn; auto 10.
Qed.

(** ** Authentication *)

Lemma connect_with_token (w : World) :
  truthy (_token (self w)) = true ->
  connect authenticate w = _load_homedoc_hrefs w.
Proof.
  intros H. unfold connect. unfold bind at 1. unfold get_self.
  cbv beta iota. rewrite H. reflexivity.
Qed.

Lemma auth_calls_same_trace (w w' : World) :
  trace w' = trace w -> auth_calls w' = auth_calls w.
Proof. unfold auth_calls. intros ->. reflexivity. Qed.

(** C5: on a session that holds a token, [connect()] makes no call to the
    authenticator and leaves the endpoint and the token as they were; the
    same is true of a second [connect()] after the first. *)
Theorem connect_idempotent (w : World) :
  truthy (_token (self w)) = true ->
  let w1 := snd (connect authenticate w) in
  let w2 := snd (connect authenticate w1) in
  (auth_calls w1 = auth_calls w /\
   _endpoint (self w1) = _endpoint (self w) /\
   _token (self w1) = _token (self w)) /\
  (auth_calls w2 = auth_calls w /\
   _endpoint (self w2) = _endpoint (self w) /\
   _token (self w2) = _token (self w)).
Proof.
  intros H w1 w2.
  assert (H1 : same_but_attrs w w1).
  { subst w1. rewrite (connect_with_token w H). apply load_homedoc_hrefs_frame. }
  assert (Ht1 : truthy (_token (self w1)) = true).
  { destruct H1 as (_ & _ & _ & _ & _ & Ht & _). rewrite Ht. exact H. }
  assert (H2 : same_but_attrs w w2).
  { apply (same_but_attrs_trans w w1 w2 H1).
    subst w2. rewrite (connect_with_token w1 Ht1).
    apply load_homedoc_hrefs_frame. }
  destruct H1 as (_ & Htr1 & _ & _ & _ & Htok1 & Hep1 & _).
  destruct H2 as (_ & Htr2 & _ & _ & _ & Htok2 & Hep2 & _).
  repeat split; try assumption; apply auth_calls_same_trace; assumption.
Qed.

Lemma load_homedoc_hrefs_no_endpoint (w : World) :
  _endpoint (self w) = VNone ->
  _load_homedoc_hrefs w =
    (Raise (TypeError "unsupported operand type(s) for +"), w).
Proof.
  intros H. unfold _load_homedoc_hrefs. unfold bind at 1 2.
  unfold get_self, lift. cbv beta iota. rewrite H. reflexivity.
Qed.

(** C10: a [Connection] constructed with a token and no endpoint skips the
    authenticator in [connect()] and fails with a [TypeError] at the first
    template, [None + "/queues"], leaving the session as it was.  So with a
    token supplied, [connect()] returns only if an endpoint was supplied
    too. *)
Theorem connect_token_without_endpoint
    (client_id auth_endpoint user key : pyval) (kwargs : gmap string pyval) :
  truthy (kwargs_get kwargs "token") = true ->
  let w := fresh (__init__ client_id auth_endpoint user key kwargs) in
  (kwargs_get kwargs "endpoint" = VNone ->
     connect authenticate w =
       (Raise (TypeError "unsupported operand type(s) for +"), w))
  /\ (fst (connect authenticate w) = Ok tt ->
        kwargs_get kwargs "endpoint" <> VNone)
  /\ auth_calls (snd (connect authenticate w)) = 0%nat.
Proof.
  intros Htok w.
  assert (Hrun : connect authenticate w = _load_homedoc_hrefs w).
  { apply connect_with_token. exact Htok. }
  assert (Hnone : kwargs_get kwargs "endpoint" = VNone ->
                  connect authenticate w =
                    (Raise (TypeError "unsupported operand type(s) for +"), w)).
  { intros He. rewrite Hrun. apply load_homedoc_hrefs_no_endpoint. exact He. }
  split; [exact Hnone | split].
  - intros Hok He. rewrite (Hnone He) in Hok. discriminate.
  - rewrite Hrun.
    destruct (load_homedoc_hrefs_frame w) as (_ & Htr & _).
    rewrite (auth_calls_same_trace _ _ Htr). reflexivity.
Qed.

(** C7 (as amended): for an endpoint whose scheme is [http] the transport
    selector returns a new plain connection bound to the endpoint's network
    location; for the scheme [https] it returns a new encrypted connection
    bound to the network location, with no trust anchor configured, whatever
    [cacert] the session holds. *)
Theorem http_connect_selection (w : World) (u : string) :
  _endpoint (self w) = VStr u ->
  (scheme (urlparse u) = "http" ->
     _http_connect urlparse w =
       (Ok (length (conns w)),
        mkWorld (self w)
          (conns w ++ [mkHTTPConn false (netloc (urlparse u)) VNone false None])
          (trace w)))
  /\ (scheme (urlparse u) = "https" ->
        _http_connect urlparse w =
          (Ok (length (conns w)),
           mkWorld (self w)
             (conns w ++ [mkHTTPConn true (netloc (urlparse u)) VNone false None])
             (trace w))).
Proof.
  intros Hep. split; intros Hs.
  - rewrite (http_connect_supported w u Hep (or_introl Hs)).
    unfold selected. rewrite Hs. reflexivity.
  - rewrite (http_connect_supported w u Hep (or_intror Hs)).
    unfold selected. rewrite Hs. reflexivity.
Qed.

(** An endpoint with any other scheme: the selector fails on the unbound
    name [href] before it can build its own error. *)
Lemma http_connect_unsupported (w : World) (u : string) :
  _endpoint (self w) = VStr u ->
  ~ supported_scheme (scheme (urlparse u)) ->
  _http_connect urlparse w = (Raise (NameError "href"), w).
Proof.
  intros Hep Hs.
  unfold _http_connect, bind, get_self, py_urlparse.
  rewrite Hep. unfold ret.
  destruct (String.eqb_spec (scheme (urlparse u)) "http") as [E | _].
  { exfalso. apply Hs. left. exact E. }
  destruct (String.eqb_spec (scheme (urlparse u)) "https") as [E | _].
  { exfalso. apply Hs. right. exact E. }
  reflexivity.
Qed.

(** ** Running a computation step by step *)

Lemma bind_run {A B} (c : M A) (k : A -> M B) (w w' : World) (a : A) :
  c w = (Ok a, w') -> bind c k w = k a w'.
Proof. intros H. unfold bind. rewrite H. reflexivity. Qed.

Lemma bind_raise {A B} (c : M A) (k : A -> M B) (w w' : World) (e : exn) :
  c w = (Raise e, w') -> bind c k w = (Raise e, w').
Proof. intros H. unfold bind. rewrite H. reflexivity. Qed.

Lemma getattr_run (name : string) (v : pyval) (w : World) :
  attrs (self w) !! name = Some v -> getattr name w = (Ok v, w).
Proof.
  intros H. unfold getattr, bind, get_self. rewrite H. reflexivity.
Qed.

Lemma getattr_missing (name : string) (w : World) :
  attrs (self w) !! name = None ->
  getattr name w = (Raise (AttributeError name), w).
Proof.
  intros H. unfold getattr, bind, get_self. rewrite H. reflexivity.
Qed.

(** ** Queue operations *)

(** C6 (as amended): on a session that passes the guards and has its
    templates loaded, [create_queue] expands the single-queue template with
    the name and sends one PUT to that href with the body
    [{"messages": {"ttl": ttl}}]; when the response has a status in
    [200, 299] and a body that is empty or a JSON text, it returns the Queue
    handle with that name, that href and the request body as metadata. *)
Theorem create_queue_returns_handle
    (queue_name ttl headers : pyval) (w : World) (u : string)
    (tmpl href : pyval) :
  guards_pass w ->
  _endpoint (self w) = VStr u ->
  supported_scheme (scheme (urlparse u)) ->
  attrs (self w) !! "queue_href" = Some tmpl ->
  proc_template tmpl [("queue_name", queue_name)] = Ok href ->
  let body := VDict [("messages", VDict [("ttl", ttl)])] in
  let rq := mkRequest "PUT" href (json_dumps body) headers in
  200 <= status (server rq) <= 299 ->
  content (server rq) = "" \/ (exists v, json_loads (content (server rq)) = Some v) ->
  create_queue proc_template json_dumps json_loads urlparse server
      queue_name ttl headers w =
    (Ok (mkQueue href queue_name body),
     exchanged (selected (urlparse u)) rq true w).
Proof.
  intros Hg Hep Hs Htmpl Hpt body rq Hst Hbody.
  unfold create_queue. rewrite (guards_pass_run _ w Hg).
  rewrite (bind_run _ _ w w tmpl (getattr_run _ _ _ Htmpl)).
  unfold lift at 1. rewrite Hpt. unfold bind at 1. fold body.
  unfold bind.
  rewrite (perform_http_run "PUT" headers href body w u Hep Hs).
  change (serialize_body json_dumps body) with (json_dumps body). fold rq.
  apply status_2xx in Hst. rewrite Hst.
  destruct Hbody as [Hc | [v Hv]].
  - rewrite (proj2 (length_zero_empty _) Hc). reflexivity.
  - destruct (0 <? String.length (content (server rq)))%nat.
    + rewrite Hv. reflexivity.
    + reflexivity.
Qed.

(** C2: what the code does when the request of [get_queue] or
    [delete_queue] fails.  On the status 404 the handler reads the name
    [NoSuchQueueError], which the module does not bind, so a [NameError]
    comes out in place of the not-found error; on every other status outside
    [200, 299] the [ClientException] of the request executor is raised again
    as it is. *)
Theorem queue_request_failure
    (queue_name headers : pyval) (w : World) (u : string) (tmpl href : pyval) :
  guards_pass w ->
  _endpoint (self w) = VStr u ->
  supported_scheme (scheme (urlparse u)) ->
  attrs (self w) !! "queue_href" = Some tmpl ->
  proc_template tmpl [("queue_name", queue_name)] = Ok href ->
  let r_get := server (mkRequest "GET" href "" headers) in
  let r_del := server (mkRequest "DELETE" href "" headers) in
  let got := fst (get_queue proc_template json_dumps json_loads urlparse server
                    queue_name headers w) in
  let deleted := fst (delete_queue proc_template json_dumps json_loads urlparse
                        server queue_name headers w) in
  (status r_get = 404 -> got = Raise (NameError "NoSuchQueueError"))
  /\ (status r_del = 404 -> deleted = Raise (NameError "NoSuchQueueError"))
  /\ (~ (200 <= status r_get <= 299) -> status r_get <> 404 ->
      got = Raise (ClientException href "GET" (status r_get) (content r_get)))
  /\ (~ (200 <= status r_del <= 299) -> status r_del <> 404 ->
      deleted = Raise (ClientException href "DELETE" (status r_del) (content r_del))).
Proof.
  intros Hg Hep Hs Htmpl Hpt r_get r_del got deleted.
  assert (Hgot : got =
    if Z.eqb (status r_get / 100) 2 then got
    else if Z.eqb (status r_get) 404 then Raise (NameError "NoSuchQueueError")
    else Raise (ClientException href "GET" (status r_get) (content r_get))).
  { destruct (Z.eqb (status r_get / 100) 2) eqn:E2; [reflexivity |].
    subst got. unfold get_queue. rewrite (guards_pass_run _ w Hg).
    rewrite (bind_run _ _ w w tmpl (getattr_run _ _ _ Htmpl)).
    unfold lift at 1. rewrite Hpt. unfold bind at 1.
    unfold bind, try_except_ClientException.
    rewrite (perform_http_run "GET" headers href (VStr "") w u Hep Hs).
    change (serialize_body json_dumps (VStr "")) with "". fold r_get.
    rewrite E2. cbn [is_ClientException].
    unfold not_found_or_reraise. cbn [exn_http_status].
    destruct (Z.eqb (status r_get) 404); reflexivity. }
  assert (Hdel : deleted =
    if Z.eqb (status r_del / 100) 2 then deleted
    else if Z.eqb (status r_del) 404 then Raise (NameError "NoSuchQueueError")
    else Raise (ClientException href "DELETE" (status r_del) (content r_del))).
  { destruct (Z.eqb (status r_del / 100) 2) eqn:E2; [reflexivity |].
    subst deleted. unfold delete_queue. rewrite (guards_pass_run _ w Hg).
    rewrite (bind_run _ _ w w tmpl (getattr_run _ _ _ Htmpl)).
    unfold lift at 1. rewrite Hpt. unfold bind at 1.
    unfold try_except_ClientException.
    rewrite (bind_run _ _ w w tmpl (getattr_run _ _ _ Htmpl)).
    unfold lift at 1. rewrite Hpt. unfold bind.
    rewrite (perform_http_run "DELETE" headers href (VStr "") w u Hep Hs).
    change (serialize_body json_dumps (VStr "")) with "". fold r_del.
    rewrite E2. cbn [is_ClientException].
    unfold not_found_or_reraise. cbn [exn_http_status].
    destruct (Z.eqb (status r_del) 404); reflexivity. }
  repeat split.
  - intros H. rewrite Hgot, H. reflexivity.
  - intros H. rewrite Hdel, H. reflexivity.
  - intros H2 H4. rewrite Hgot.
    apply status_not_2xx in H2. rewrite H2.
    apply Z.eqb_neq in H4. rewrite H4. reflexivity.
  - intros H2 H4. rewrite Hdel.
    apply status_not_2xx in H2. rewrite H2.
    apply Z.eqb_neq in H4. rewrite H4. reflexivity.
Qed.

(** ** Listing *)

Lemma get_queues_yield_run (e : pyval) (q : Queue) (w : World) :
  handle_of e q -> get_queues_yield e w = (Ok q, w).
Proof.
  intros (Hn & Hh & Hm). unfold get_queues_yield, bind, lift, ret.
  rewrite Hn, Hh, Hm. destruct q; reflexivity.
Qed.

Lemma gen_list_suspended (els : list pyval) (qs : list Queue) :
  Forall2 handle_of els qs ->
  forall (w : World) (fuel : nat),
  (length els < fuel)%nat ->
  gen_list json_dumps json_loads urlparse server fuel (GenSuspended els) w =
    Some (Ok qs, w).
Proof.
  induction 1 as [| e q els qs Hq Hrest IH]; intros w fuel Hfuel.
  - destruct fuel as [| fuel]; [cbn in Hfuel; lia |]. reflexivity.
  - destruct fuel as [| fuel]; [cbn in Hfuel; lia |].
    cbn [gen_list gen_next get_queues_loop].
    rewrite (get_queues_yield_run e q w Hq).
    rewrite IH; [reflexivity | cbn in Hfuel; lia].
Qed.

Lemma gen_list_created (headers : pyval) (els : list pyval) (w w' : World)
    (fuel : nat) :
  get_queues_fetch json_dumps json_loads urlparse server headers w = (Ok els, w') ->
  gen_list json_dumps json_loads urlparse server fuel (GenCreated headers) w =
  gen_list json_dumps json_loads urlparse server fuel (GenSuspended els) w'.
Proof.
  intros H. destruct fuel as [| fuel]; [reflexivity |].
  cbn [gen_list gen_next]. rewrite H. reflexivity.
Qed.

(** C8: on a session that passes the guards and has its templates loaded,
    when the service answers the GET on the queues collection with a status
    in [200, 299] and a JSON body whose [queues] member is the list
    [e1, ..., en], each element having a [name], an [href] and a [metadata],
    the call of [get_queues] makes a generator without any traffic, and
    running the generator to its end yields exactly the [n] handles of the
    elements, in the order of the list, after one request. *)
Theorem get_queues_yields_in_order
    (headers : pyval) (w : World) (u : string) (href body : pyval)
    (els : list pyval) (qs : list Queue) :
  guards_pass w ->
  _endpoint (self w) = VStr u ->
  supported_scheme (scheme (urlparse u)) ->
  attrs (self w) !! "queues_href" = Some href ->
  let rq := mkRequest "GET" href "" headers in
  200 <= status (server rq) <= 299 ->
  content (server rq) <> "" ->
  json_loads (content (server rq)) = Some body ->
  py_getitem body "queues" = Ok (VList els) ->
  Forall2 handle_of els qs ->
  length qs = length els /\
  get_queues headers w = (Ok (GenCreated headers), w) /\
  forall fuel : nat, (length els < fuel)%nat ->
    gen_list json_dumps json_loads urlparse server fuel (GenCreated headers) w =
      Some (Ok qs, exchanged (selected (urlparse u)) rq true w).
Proof.
  intros Hg Hep Hs Hhref rq Hst Hne Hbody Hqueues Hels.
  split; [symmetry; eapply Forall2_length; exact Hels | split].
  - unfold get_queues. rewrite (guards_pass_run _ w Hg). reflexivity.
  - intros fuel Hfuel.
    rewrite (gen_list_created headers els w
               (exchanged (selected (urlparse u)) rq true w)).
    + apply gen_list_suspended; assumption.
    + unfold get_queues_fetch.
      rewrite (bind_run _ _ w w href (getattr_run _ _ _ Hhref)).
      unfold bind at 1.
      rewrite (perform_http_run "GET" headers href (VStr "") w u Hep Hs).
      change (serialize_body json_dumps (VStr "")) with "". fold rq.
      apply status_2xx in Hst. rewrite Hst.
      rewrite (proj2 (length_pos_nonempty _) Hne), Hbody.
      unfold bind, lift. cbn [snd]. rewrite Hqueues. reflexivity.
Qed.

(** ** Queue metadata *)

Lemma connect_same_attr (name : string) :
  ~ In name [ "queues_href"; "queue_href"; "messages_href"; "message_href";
              "_claims_href"; "_claim_href"; "actions_href"; "action_href" ] ->
  preserves (same_attr name) (connect authenticate).
Proof.
  intros Hname. unfold connect.
  apply (preserves_bind _ _ _ (fun w => eq_refl (attrs (self w) !! name))
           (same_attr_trans name)).
  { intros w. reflexivity. }
  intros s.
  apply (preserves_bind _ _ _ (fun w => eq_refl (attrs (self w) !! name))
           (same_attr_trans name)).
  - destruct (negb (truthy (_token s))).
    + frame_steps (fun w => eq_refl (attrs (self w) !! name))
        (same_attr_trans name); intros w; reflexivity.
    + intros w. reflexivity.
  - intros _. apply load_homedoc_hrefs_same_attr. exact Hname.
Qed.

(** C9: what the code does.  On every session that was constructed and then
    connected and that passes the guards, [get_queue_metadata] raises
    [AttributeError] on reading [self._queue_href], an attribute no method
    assigns; the world is as it was, so no GET is sent and no body comes
    back. *)
Theorem get_queue_metadata_raises_AttributeError
    (client_id auth_endpoint user key : pyval) (kwargs : gmap string pyval)
    (queue_name headers : pyval) :
  let w := snd (connect authenticate
                  (fresh (__init__ client_id auth_endpoint user key kwargs))) in
  guards_pass w ->
  get_queue_metadata proc_template queue_name headers w =
    (Raise (AttributeError "_queue_href"), w).
Proof.
  intros w Hg. unfold get_queue_metadata.
  rewrite (guards_pass_run _ w Hg).
  apply bind_raise. apply getattr_missing.
  subst w. rewrite connect_same_attr.
  - reflexivity.
  - cbn. intros H.
    repeat match goal with H : _ \/ _ |- _ => destruct H as [H | H] end;
      solve [discriminate | contradiction].
Qed.

End ClientProperties.

(** ** The templates after a successful load *)

Lemma setattr_run (name : string) (v : pyval) (w : World) :
  setattr name v w = (Ok tt, with_attr name v w).
Proof. reflexivity. Qed.

Lemma with_attr_lookup (name : string) (v : pyval) (w : World) :
  attrs (self (with_attr name v w)) !! name = Some v.
Proof.
  unfold with_attr, setattr, set_self. cbn [snd self attrs].
  apply lookup_insert_eq.
Qed.

Lemma with_attr_lookup_ne (name name' : string) (v : pyval) (w : World) :
  name <> name' ->
  attrs (self (with_attr name v w)) !! name' = attrs (self w) !! name'.
Proof.
  intros H. unfold with_attr, setattr, set_self. cbn [snd self attrs].
  apply lookup_insert_ne. exact H.
Qed.

Lemma with_attr_frame (name : string) (v : pyval) (w : World) :
  same_but_attrs w (with_attr name v w).
Proof. unfold same_but_attrs. repeat split; reflexivity. Qed.

(** One statement of the form [self.name = base + suffix], [base] being a
    string. *)
Lemma assign_sum_run {B} (base : M pyval) (x suffix name : string)
    (k : unit -> M B) (w : World) :
  base w = (Ok (VStr x), w) ->
  bind base (fun q =>
    bind (lift (py_add q (VStr suffix))) (fun v =>
      bind (setattr name v) k)) w
  = k tt (with_attr name (VStr (x +:+ suffix)) w).
Proof.
  intros Hbase. rewrite (bind_run _ _ w w (VStr x) Hbase). reflexivity.
Qed.

Lemma getattr_with_attr (name : string) (v : pyval) (w : World) :
  getattr name (with_attr name v w) = (Ok v, with_attr name v w).
Proof. apply getattr_run. apply with_attr_lookup. Qed.

Lemma endpoint_run (w : World) (ep : string) :
  _endpoint (self w) = VStr ep ->
  bind get_self (fun s => ret (_endpoint s)) w = (Ok (VStr ep), w).
Proof. intros H. unfold bind, get_self, ret. rewrite H. reflexivity. Qed.

Lemma load_homedoc_hrefs_loads (w : World) (ep : string) :
  _endpoint (self w) = VStr ep ->
  exists w',
    _load_homedoc_hrefs w = (Ok tt, w') /\
    same_but_attrs w w' /\
    attrs (self w') !! "queues_href" = Some (VStr (ep +:+ "/queues")) /\
    attrs (self w') !! "queue_href"
      = Some (VStr ((ep +:+ "/queues") +:+ "/{queue_name}")).
Proof.
  intros Hep.
  set (w1 := with_attr "queues_href" (VStr (ep +:+ "/queues")) w).
  set (w2 := with_attr "queue_href"
               (VStr ((ep +:+ "/queues") +:+ "/{queue_name}")) w1).
  set (w3 := with_attr "messages_href"
               (VStr (((ep +:+ "/queues") +:+ "/{queue_name}") +:+ "/messages")) w2).
  set (w4 := with_attr "message_href"
               (VStr ((((ep +:+ "/queues") +:+ "/{queue_name}") +:+ "/messages")
                        +:+ "/{message_id}")) w3).
  set (w5 := with_attr "_claims_href" (VStr ((ep +:+ "/queues") +:+ "/claims")) w4).
  set (w6 := with_attr "_claim_href"
               (VStr ((ep +:+ "/queues") +:+ "/claims/{claim_id}")) w5).
  set (w7 := with_attr "actions_href" (VStr (ep +:+ "/actions")) w6).
  set (w8 := with_attr "action_href"
               (VStr ((ep +:+ "/actions") +:+ "/{action_id}")) w7).
  assert (Hq1 : attrs (self w1) !! "queues_href" = Some (VStr (ep +:+ "/queues"))).
  { apply with_attr_lookup. }
  assert (Hq4 : attrs (self w4) !! "queues_href" = Some (VStr (ep +:+ "/queues"))).
  { unfold w4, w3, w2. rewrite !with_attr_lookup_ne by discriminate. exact Hq1. }
  assert (Hq5 : attrs (self w5) !! "queues_href" = Some (VStr (ep +:+ "/queues"))).
  { unfold w5. rewrite with_attr_lookup_ne by discriminate. exact Hq4. }
  exists w8. split; [| split; [| split]].
  - unfold _load_homedoc_hrefs.
    unfold bind at 1. unfold get_self at 1. cbv beta iota.
    unfold bind at 1. unfold lift at 1. rewrite Hep. cbv beta iota.
    cbn [py_add].
    rewrite (bind_run _ _ w w1 tt (setattr_run _ _ _)).
    rewrite (assign_sum_run _ _ _ _ _ w1 (getattr_with_attr _ _ _)). fold w2.
    rewrite (assign_sum_run _ _ _ _ _ w2 (getattr_with_attr _ _ _)). fold w3.
    rewrite (assign_sum_run _ _ _ _ _ w3 (getattr_with_attr _ _ _)). fold w4.
    rewrite (assign_sum_run _ _ _ _ _ w4 (getattr_run _ _ _ Hq4)). fold w5.
    rewrite (assign_sum_run _ _ _ _ _ w5 (getattr_run _ _ _ Hq5)). fold w6.
    unfold bind at 1. unfold get_self at 1. cbv beta iota.
    unfold bind at 1. unfold lift at 1.
    change (_endpoint (self w6)) with (_endpoint (self w)). rewrite Hep.
    cbv beta iota. cbn [py_add].
    rewrite (bind_run _ _ w6 w7 tt (setattr_run _ _ _)).
    rewrite (bind_run _ _ w7 w7 _ (getattr_with_attr _ _ _)).
    reflexivity.
  - unfold same_but_attrs. repeat split; reflexivity.
  - unfold w8, w7, w6. rewrite !with_attr_lookup_ne by discriminate. exact Hq5.
  - unfold w8, w7, w6, w5, w4, w3.
    rewrite !with_attr_lookup_ne by discriminate. apply with_attr_lookup.
Qed.

(** [connect()] on a session without a token, when the authenticator grants
    the request with a string endpoint: one call to the authenticator, the
    endpoint and the token it returned are stored, and the templates are
    derived from that endpoint. *)
Lemma connect_authenticates
    (authenticate : pyval -> pyval -> pyval -> pyval -> pyval -> res (pyval * pyval))
    (w : World) (ep : string) (tok : pyval) :
  truthy (_token (self w)) = false ->
  authenticate (_auth_endpoint (self w)) (_user (self w)) (_key (self w))
    (_endpoint (self w)) (_cacert (self w)) = Ok (VStr ep, tok) ->
  exists w',
    connect authenticate w = (Ok tt, w') /\
    _token (self w') = tok /\
    _endpoint (self w') = VStr ep /\
    _client_id (self w') = _client_id (self w) /\
    auth_calls w' = S (auth_calls w) /\
    attrs (self w') !! "queues_href" = Some (VStr (ep +:+ "/queues")) /\
    attrs (self w') !! "queue_href"
      = Some (VStr ((ep +:+ "/queues") +:+ "/{queue_name}")).
Proof.
  intros Htok Hauth.
  set (w0 := snd (bind (set_endpoint (VStr ep)) (fun _ => set_token tok)
                    (snd (log (EvAuthenticate (_auth_endpoint (self w))
                                 (_user (self w)) (_key (self w))
                                 (_endpoint (self w)) (_cacert (self w))) w)))).
  destruct (load_homedoc_hrefs_loads w0 ep eq_refl)
    as (w' & Hrun & Hframe & Hqs & Hq).
  exists w'.
  destruct Hframe as (_ & Htr & _ & _ & _ & Ht & He & _ & Hc).
  split; [| repeat split; try assumption].
  - unfold connect. unfold bind at 1. unfold get_self at 1. cbv beta iota.
    rewrite Htok. cbn [negb].
    unfold bind at 1. unfold bind at 1. unfold log at 1. cbv beta iota.
    unfold bind at 1. unfold lift at 1. rewrite Hauth. cbv beta iota.
    cbn [fst snd]. exact Hrun.
  - unfold auth_calls. rewrite Htr. subst w0. cbn [snd log bind set_endpoint
      set_token set_self trace]. unfold auth_calls.
    rewrite filter_app, length_app.
    match goal with |- (_ + ?x)%nat = _ => change x with 1%nat end. lia.
Qed.

(** ** The JSON texts of the test double *)

(** The text of one opening brace is no JSON text: the parser rejects it, it
    does not run out of fuel. *)
Lemma open_brace_is_invalid : Json.parse_text "{" = Json.Invalid.
Proof. reflexivity. Qed.

Lemma two_queues_round_trip :
  Json.loads (Json.dumps Mock.two_queues) = Some Mock.two_queues.
Proof. vm_compute. reflexivity. Qed.

(** * Concrete runs against the test double *)

Lemma connected_guards_pass : guards_pass Mock.connected.
Proof. repeat split; reflexivity. Defined.

Lemma connected_scheme :
  supported_scheme (scheme (Url.urlparse Mock.endpoint_url)).
Proof. left. reflexivity. Defined.

Lemma connected_queue_href :
  attrs (self Mock.connected) !! "queue_href"
  = Some (VStr (Mock.endpoint_url +:+ "/queues/{queue_name}")).
Proof. vm_compute. reflexivity. Defined.

(** A 201 with an empty body: the header mapping and the empty string. *)
Lemma status_classification_on_mock :
  fst (Mock.perform_http "PUT" no_headers (url_of "/queues/q1")
         (VDict [("messages", VDict [("ttl", VInt 60)])]) Mock.connected)
  = Ok (dict [], VStr "").
Proof.
  refine (proj1 (perform_http_status_classification
                   Json.dumps Json.loads Url.urlparse Mock.server
                   "PUT" no_headers (url_of "/queues/q1")
                   (VDict [("messages", VDict [("ttl", VInt 60)])])
                   Mock.connected Mock.endpoint_url eq_refl connected_scheme)
            _ _).
  - vm_compute. split; discriminate.
  - reflexivity.
Defined.

(** A 200 whose body is the text of one opening brace: the status is in the
    range of success and [_perform_http] raises. *)
Lemma perform_http_raises_on_200 :
  let r := Mock.server (mkRequest "GET" (url_of "/queues/broken") "" no_headers) in
  200 <= status r <= 299 /\
  fst (Mock.perform_http "GET" no_headers (url_of "/queues/broken") (VStr "")
         Mock.connected)
  = Raise (ValueError "No JSON object could be decoded").
Proof. vm_compute. repeat split; discriminate. Qed.

(** [get_queue("missing", {})] against a 404. *)
Lemma get_missing_queue_on_mock :
  fst (Mock.get_queue (VStr "missing") no_headers Mock.connected)
  = Raise (NameError "NoSuchQueueError").
Proof.
  refine (proj1 (queue_request_failure
                   Misc.proc_template Json.dumps Json.loads Url.urlparse
                   Mock.server (VStr "missing") no_headers Mock.connected
                   Mock.endpoint_url
                   (VStr (Mock.endpoint_url +:+ "/queues/{queue_name}"))
                   (url_of "/queues/missing")
                   connected_guards_pass eq_refl connected_scheme
                   connected_queue_href _) _).
  - reflexivity.
  - reflexivity.
Defined.

(** A GET answered with 404 leaves one socket open. *)
Lemma socket_left_open_on_mock :
  open_sockets (snd (Mock.perform_http "GET" no_headers
                       (url_of "/queues/missing") (VStr "") Mock.connected))
  = 1%nat.
Proof.
  refine (proj2 (proj2 (perform_http_error_leaves_socket_open
                   Json.dumps Json.loads Url.urlparse Mock.server
                   "GET" no_headers (url_of "/queues/missing") (VStr "")
                   Mock.connected Mock.endpoint_url eq_refl connected_scheme
                   _))).
  vm_compute. intros [_ H]. apply H. reflexivity.
Defined.

(** A session made without a client id: [create_queue] stops at the first
    guard. *)
Lemma create_queue_without_client_id :
  let w := fresh (__init__ VNone (VStr "http://auth.example/v1") (VStr "user")
                    (VStr "key") ∅) in
  Mock.create_queue (VStr "q1") (VInt 60) no_headers w
  = (Raise MissingClientIdError, w).
Proof.
  refine (proj1 (guards_fail_before_io
                   Misc.proc_template Json.dumps Json.loads Url.urlparse
                   Mock.server (VStr "q1") (VInt 60) no_headers
                   (fresh (__init__ VNone (VStr "http://auth.example/v1")
                             (VStr "user") (VStr "key") ∅))
                   (or_introl eq_refl))).
Defined.

(** A second [connect()] on the connected session. *)
Lemma reconnect_on_mock :
  auth_calls (snd (connect Mock.authenticate Mock.connected))
  = auth_calls Mock.connected.
Proof.
  refine (proj1 (proj1 (connect_idempotent Mock.authenticate Mock.connected _))).
  reflexivity.
Defined.

(** [create_queue("q1", 60, {})] against a 201 with an empty body. *)
Lemma create_q1_on_mock :
  fst (Mock.create_queue (VStr "q1") (VInt 60) no_headers Mock.connected)
  = Ok (mkQueue (url_of "/queues/q1") (VStr "q1")
          (VDict [("messages", VDict [("ttl", VInt 60)])])).
Proof.
  refine (f_equal fst (create_queue_returns_handle
                   Misc.proc_template Json.dumps Json.loads Url.urlparse
                   Mock.server (VStr "q1") (VInt 60) no_headers Mock.connected
                   Mock.endpoint_url
                   (VStr (Mock.endpoint_url +:+ "/queues/{queue_name}"))
                   (url_of "/queues/q1")
                   connected_guards_pass eq_refl connected_scheme
                   connected_queue_href _ _ _)).
  - reflexivity.
  - vm_compute. split; discriminate.
  - left. reflexivity.
Defined.

(** [create_queue("broken", 60, {})] against a 200 whose body is no JSON
    text: the session is authenticated, the status is in the range of
    success, and no handle comes back. *)
Lemma create_queue_raises_on_200 :
  let body := VDict [("messages", VDict [("ttl", VInt 60)])] in
  let r := Mock.server (mkRequest "PUT" (url_of "/queues/broken")
                          (Json.dumps body) no_headers) in
  guards_pass Mock.connected /\
  200 <= status r <= 299 /\
  fst (Mock.create_queue (VStr "broken") (VInt 60) no_headers Mock.connected)
  = Raise (ValueError "No JSON object could be decoded").
Proof. vm_compute. repeat split; discriminate. Qed.

(** An [https] endpoint on a session without [cacert]. *)
Lemma https_selection_on_mock :
  _http_connect Url.urlparse
    (fresh (__init__ (VStr "client-1") (VStr "https://auth.example/v1")
              (VStr "user") (VStr "key")
              (<["endpoint" := VStr "https://localhost:8888/v1"]> ∅)))
  = (Ok 0%nat,
     mkWorld (__init__ (VStr "client-1") (VStr "https://auth.example/v1")
                (VStr "user") (VStr "key")
                (<["endpoint" := VStr "https://localhost:8888/v1"]> ∅))
       [mkHTTPConn true "localhost:8888" VNone false None] []).
Proof.
  refine (proj2 (http_connect_selection Url.urlparse
                   (fresh (__init__ (VStr "client-1")
                             (VStr "https://auth.example/v1") (VStr "user")
                             (VStr "key")
                             (<["endpoint" := VStr "https://localhost:8888/v1"]> ∅)))
                   "https://localhost:8888/v1" _) _).
  - reflexivity.
  - reflexivity.
Defined.

(** The session made with [cacert='/etc/ssl/ca.pem'] and an [https]
    endpoint: the connection the selector makes is encrypted and has no
    trust anchor. *)
Lemma https_connection_without_cacert :
  _cacert Mock.secure_session = VStr "/etc/ssl/ca.pem" /\
  _endpoint Mock.secure_session = VStr "https://localhost:8888/v1" /\
  scheme (Url.urlparse "https://localhost:8888/v1") = "https" /\
  fst (_http_connect Url.urlparse (fresh Mock.secure_session)) = Ok 0%nat /\
  conns (snd (_http_connect Url.urlparse (fresh Mock.secure_session)))
  = [mkHTTPConn true "localhost:8888" VNone false None].
Proof. vm_compute. repeat split; reflexivity. Qed.

(** The listing of the two queues [a] and [b]. *)
Lemma list_two_queues_on_mock :
  Mock.gen_list 3 (GenCreated no_headers) Mock.connected
  = Some (Ok [mkQueue (VStr "/queues/a") (VStr "a") (VDict []);
              mkQueue (VStr "/queues/b") (VStr "b") (VDict [])],
          exchanged (selected (Url.urlparse Mock.endpoint_url))
            (mkRequest "GET" (url_of "/queues") "" no_headers) true
            Mock.connected).
Proof.
  refine (proj2 (proj2 (get_queues_yields_in_order
                   Json.dumps Json.loads Url.urlparse Mock.server
                   no_headers Mock.connected Mock.endpoint_url
                   (url_of "/queues") Mock.two_queues
                   [Mock.queue_a; Mock.queue_b]
                   [mkQueue (VStr "/queues/a") (VStr "a") (VDict []);
                    mkQueue (VStr "/queues/b") (VStr "b") (VDict [])]
                   connected_guards_pass eq_refl connected_scheme
                   _ _ _ _ _ _)) 3%nat _).
  - vm_compute. reflexivity.
  - vm_compute. split; discriminate.
  - vm_compute. discriminate.
  - vm_compute. reflexivity.
  - reflexivity.
  - repeat constructor.
  - cbn. lia.
Defined.

(** [get_queue_metadata("q1", {})] on the connected session. *)
Lemma get_metadata_on_mock :
  Mock.get_queue_metadata (VStr "q1") no_headers Mock.connected
  = (Raise (AttributeError "_queue_href"), Mock.connected).
Proof.
  refine (get_queue_metadata_raises_AttributeError
            Mock.authenticate Misc.proc_template
            (VStr "client-1") (VStr "http://auth.example/v1") (VStr "user")
            (VStr "key") ∅ (VStr "q1") no_headers connected_guards_pass).
Defined.

(** [Connection(..., token='token-0').connect()] *)
Lemma connect_token_only_on_mock :
  connect Mock.authenticate (fresh Mock.token_only_session)
  = (Raise (TypeError "unsupported operand type(s) for +"),
     fresh Mock.token_only_session).
Proof.
  refine (proj1 (connect_token_without_endpoint Mock.authenticate
                   (VStr "client-1") (VStr "http://auth.example/v1")
                   (VStr "user") (VStr "key") (<["token" := VStr "token-0"]> ∅)
                   _) _).
  - reflexivity.
  - reflexivity.
Defined.

(** * Further properties of the class *)

Lemma append_assoc (a b c : string) : (a +:+ b) +:+ c = a +:+ (b +:+ c).
Proof.
  induction a as [| x a IH]; [reflexivity |].
  change (String x ((a +:+ b) +:+ c) = String x (a +:+ (b +:+ c))).
  rewrite IH. reflexivity.
Qed.

Lemma with_attr_id (name : string) (v : pyval) (w : World) :
  attrs (self w) !! name = Some v -> with_attr name v w = w.
Proof.
  intros H. destruct w as [s cs tr]. destruct s. cbn [self attrs] in H.
  unfold with_attr, setattr, set_self. cbn [snd self conns trace attrs
    _auth_endpoint _user _key _token _endpoint _cacert _client_id].
  rewrite (insert_id _ _ _ H). reflexivity.
Qed.

(** ** Deriving the templates *)

Lemma load_homedoc_hrefs_run (w : World) (ep : string) :
  _endpoint (self w) = VStr ep ->
  _load_homedoc_hrefs w = (Ok tt, with_templates ep w).
Proof.
  intros Hep. unfold with_templates.
  set (w1 := with_attr "queues_href" _ w).
  set (w2 := with_attr "queue_href" _ w1).
  set (w3 := with_attr "messages_href" _ w2).
  set (w4 := with_attr "message_href" _ w3).
  set (w5 := with_attr "_claims_href" _ w4).
  set (w6 := with_attr "_claim_href" _ w5).
  set (w7 := with_attr "actions_href" _ w6).
  assert (Hq1 : attrs (self w1) !! "queues_href" = Some (VStr (ep +:+ "/queues"))).
  { apply with_attr_lookup. }
  assert (Hq4 : attrs (self w4) !! "queues_href" = Some (VStr (ep +:+ "/queues"))).
  { unfold w4, w3, w2. rewrite !with_attr_lookup_ne by discriminate. exact Hq1. }
  assert (Hq5 : attrs (self w5) !! "queues_href" = Some (VStr (ep +:+ "/queues"))).
  { unfold w5. rewrite with_attr_lookup_ne by discriminate. exact Hq4. }
  unfold _load_homedoc_hrefs.
  unfold bind at 1. unfold get_self at 1. cbv beta iota.
  unfold bind at 1. unfold lift at 1. rewrite Hep. cbv beta iota.
  cbn [py_add].
  rewrite (bind_run _ _ w w1 tt (setattr_run _ _ _)).
  rewrite (assign_sum_run _ _ _ _ _ w1 (getattr_with_attr _ _ _)). fold w2.
  rewrite (assign_sum_run _ _ _ _ _ w2 (getattr_with_attr _ _ _)). fold w3.
  rewrite (assign_sum_run _ _ _ _ _ w3 (getattr_with_attr _ _ _)). fold w4.
  rewrite (assign_sum_run _ _ _ _ _ w4 (getattr_run _ _ _ Hq4)). fold w5.
  rewrite (assign_sum_run _ _ _ _ _ w5 (getattr_run _ _ _ Hq5)). fold w6.
  unfold bind at 1. unfold get_self at 1. cbv beta iota.
  unfold bind at 1. unfold lift at 1.
  change (_endpoint (self w6)) with (_endpoint (self w)). rewrite Hep.
  cbv beta iota. cbn [py_add].
  rewrite (bind_run _ _ w6 w7 tt (setattr_run _ _ _)).
  rewrite (bind_run _ _ w7 w7 _ (getattr_with_attr _ _ _)).
  reflexivity.
Qed.

Lemma with_templates_frame (ep : string) (w : World) :
  same_but_attrs w (with_templates ep w).
Proof. unfold same_but_attrs. repeat split; reflexivity. Qed.

(** The eight templates, each read back from the session. *)
Lemma with_templates_lookup (ep : string) (w : World) :
  let a := attrs (self (with_templates ep w)) in
  a !! "queues_href" = Some (VStr (ep +:+ "/queues")) /\
  a !! "queue_href" = Some (VStr ((ep +:+ "/queues") +:+ "/{queue_name}")) /\
  a !! "messages_href"
    = Some (VStr (((ep +:+ "/queues") +:+ "/{queue_name}") +:+ "/messages")) /\
  a !! "message_href"
    = Some (VStr ((((ep +:+ "/queues") +:+ "/{queue_name}") +:+ "/messages")
                    +:+ "/{message_id}")) /\
  a !! "_claims_href" = Some (VStr ((ep +:+ "/queues") +:+ "/claims")) /\
  a !! "_claim_href" = Some (VStr ((ep +:+ "/queues") +:+ "/claims/{claim_id}")) /\
  a !! "actions_href" = Some (VStr (ep +:+ "/actions")) /\
  a !! "action_href" = Some (VStr ((ep +:+ "/actions") +:+ "/{action_id}")).
Proof.
  intros a. subst a. unfold with_templates.
  repeat split;
    rewrite ?with_attr_lookup_ne by discriminate; apply with_attr_lookup.
Qed.

(** Deriving the templates a second time changes nothing. *)
Lemma with_templates_again (ep : string) (w : World) :
  with_templates ep (with_templates ep w) = with_templates ep w.
Proof.
  destruct (with_templates_lookup ep w)
    as (H1 & H2 & H3 & H4 & H5 & H6 & H7 & H8).
  set (w' := with_templates ep w) in *.
  unfold with_templates at 1.
  rewrite (with_attr_id _ _ w' H1).
  rewrite (with_attr_id _ _ w' H2).
  rewrite (with_attr_id _ _ w' H3).
  rewrite (with_attr_id _ _ w' H4).
  rewrite (with_attr_id _ _ w' H5).
  rewrite (with_attr_id _ _ w' H6).
  rewrite (with_attr_id _ _ w' H7).
  rewrite (with_attr_id _ _ w' H8).
  reflexivity.
Qed.

(** X1: on a session whose endpoint is a string, [_load_homedoc_hrefs]
    returns and leaves in the session the eight templates of the service,
    each the endpoint followed by its path: the claims paths are under
    [/queues/claims], not under a queue.  Nothing else of the session
    changes, no connection is made and nothing is sent. *)
Theorem load_homedoc_hrefs_templates (w : World) (ep : string) :
  _endpoint (self w) = VStr ep ->
  exists w',
    _load_homedoc_hrefs w = (Ok tt, w') /\
    same_but_attrs w w' /\
    attrs (self w') !! "queues_href" = Some (VStr (ep +:+ "/queues")) /\
    attrs (self w') !! "queue_href"
      = Some (VStr (ep +:+ "/queues/{queue_name}")) /\
    attrs (self w') !! "messages_href"
      = Some (VStr (ep +:+ "/queues/{queue_name}/messages")) /\
    attrs (self w') !! "message_href"
      = Some (VStr (ep +:+ "/queues/{queue_name}/messages/{message_id}")) /\
    attrs (self w') !! "_claims_href" = Some (VStr (ep +:+ "/queues/claims")) /\
    attrs (self w') !! "_claim_href"
      = Some (VStr (ep +:+ "/queues/claims/{claim_id}")) /\
    attrs (self w') !! "actions_href" = Some (VStr (ep +:+ "/actions")) /\
    attrs (self w') !! "action_href"
      = Some (VStr (ep +:+ "/actions/{action_id}")).
Proof.
  intros Hep. exists (with_templates ep w).
  split; [apply load_homedoc_hrefs_run; exact Hep |].
  split; [apply with_templates_frame |].
  destruct (with_templates_lookup ep w)
    as (H1 & H2 & H3 & H4 & H5 & H6 & H7 & H8).
  repeat rewrite append_assoc in H2. repeat rewrite append_assoc in H3.
  repeat rewrite append_assoc in H4. repeat rewrite append_assoc in H5.
  repeat rewrite append_assoc in H6. repeat rewrite append_assoc in H8.
  exact (conj H1 (conj H2 (conj H3 (conj H4 (conj H5 (conj H6 (conj H7 H8))))))).
Qed.

Ltac frame Hrefl Htrans :=
  repeat first
    [ apply (preserves_pure _ _ Hrefl); intros ?;
      first [ apply getattr_pure | reflexivity ]
    | apply (preserves_bind _ _ _ Hrefl Htrans); [| intros ? ] ].

Section FurtherProperties.

Variable authenticate : pyval -> pyval -> pyval -> pyval -> pyval -> res (pyval * pyval).
Variable proc_template : pyval -> list (string * pyval) -> res pyval.
Variable json_dumps : pyval -> string.
Variable json_loads : string -> option pyval.
Variable urlparse : string -> ParseResult.
Variable server : Request -> Response.

(** ** Connecting *)

(** X2: on a session without a token, when the authenticator grants the
    request with a string endpoint, [connect()] returns after exactly one
    call to the authenticator; afterwards the properties [token] and
    [endpoint] give what the authenticator returned, and the queue templates
    are derived from that endpoint. *)
Theorem connect_without_token_authenticates
    (w : World) (ep : string) (tok : pyval) :
  truthy (_token (self w)) = false ->
  authenticate (_auth_endpoint (self w)) (_user (self w)) (_key (self w))
    (_endpoint (self w)) (_cacert (self w)) = Ok (VStr ep, tok) ->
  exists w',
    connect authenticate w = (Ok tt, w') /\
    auth_calls w' = S (auth_calls w) /\
    token w' = (Ok tok, w') /\
    endpoint w' = (Ok (VStr ep), w') /\
    attrs (self w') !! "queues_href" = Some (VStr (ep +:+ "/queues")) /\
    attrs (self w') !! "queue_href"
      = Some (VStr (ep +:+ "/queues/{queue_name}")).
Proof.
  intros Htok Hauth.
  destruct (connect_authenticates authenticate w ep tok Htok Hauth)
    as (w' & Hrun & Ht & He & _ & Hcalls & Hqs & Hq).
  exists w'. repeat split; try assumption.
  - unfold token, bind, get_self, ret. rewrite Ht. reflexivity.
  - unfold endpoint, bind, get_self, ret. rewrite He. reflexivity.
  - rewrite append_assoc in Hq. exact Hq.
Qed.

(** X3: on a session without a token, when the authenticator raises,
    [connect()] raises the same exception after that one call; the session
    object is left exactly as it was, so no token, no endpoint and no
    template is stored, and no connection is made. *)
Theorem connect_authentication_failure (w : World) (e : exn) :
  truthy (_token (self w)) = false ->
  authenticate (_auth_endpoint (self w)) (_user (self w)) (_key (self w))
    (_endpoint (self w)) (_cacert (self w)) = Raise e ->
  exists w',
    connect authenticate w = (Raise e, w') /\
    self w' = self w /\
    conns w' = conns w /\
    trace w' = trace w ++ [EvAuthenticate (_auth_endpoint (self w)) (_user (self w))
                             (_key (self w)) (_endpoint (self w)) (_cacert (self w))].
Proof.
  intros Htok Hauth.
  eexists. split.
  - unfold connect. unfold bind at 1. unfold get_self at 1. cbv beta iota.
    rewrite Htok. cbn [negb].
    unfold bind at 1. unfold bind at 1. unfold log at 1. cbv beta iota.
    unfold bind at 1. unfold lift at 1. rewrite Hauth. cbv beta iota.
    reflexivity.
  - repeat split; reflexivity.
Qed.

(** X4: on a session that holds a token and a string endpoint, [connect()]
    returns, and a further [connect()] returns and leaves the whole world
    exactly as the first one left it: the templates are derived again to the
    same values. *)
Theorem connect_again_changes_nothing (w : World) (ep : string) :
  truthy (_token (self w)) = true ->
  _endpoint (self w) = VStr ep ->
  let w1 := snd (connect authenticate w) in
  connect authenticate w = (Ok tt, w1) /\
  connect authenticate w1 = (Ok tt, w1).
Proof.
  intros Htok Hep w1.
  assert (H1 : connect authenticate w = (Ok tt, with_templates ep w)).
  { rewrite (connect_with_token authenticate w Htok).
    apply load_homedoc_hrefs_run. exact Hep. }
  subst w1. rewrite H1. cbn [snd]. split; [reflexivity |].
  rewrite (connect_with_token authenticate (with_templates ep w) Htok).
  rewrite (load_homedoc_hrefs_run (with_templates ep w) ep Hep).
  rewrite with_templates_again. reflexivity.
Qed.

Lemma same_credentials_refl (w : World) : same_credentials w w.
Proof. unfold same_credentials. repeat split; reflexivity. Qed.

Lemma same_credentials_trans (w1 w2 w3 : World) :
  same_credentials w1 w2 -> same_credentials w2 w3 -> same_credentials w1 w3.
Proof.
  unfold same_credentials. intros H1 H2.
  repeat match goal with H : _ /\ _ |- _ => destruct H end.
  repeat split; congruence.
Qed.

(** X5: whatever the authenticator does, [connect()] never changes the
    client id, the authentication endpoint, the user, the key or the
    [cacert] of the session. *)
Theorem connect_preserves_credentials (w : World) :
  same_credentials w (snd (connect authenticate w)).
Proof.
  revert w. change (preserves same_credentials (connect authenticate)).
  unfold connect.
  apply (preserves_bind _ _ _ same_credentials_refl same_credentials_trans).
  { intros w. apply same_credentials_refl. }
  intros s.
  apply (preserves_bind _ _ _ same_credentials_refl same_credentials_trans).
  - destruct (negb (truthy (_token s))).
    + frame same_credentials_refl same_credentials_trans;
        intros w; unfold same_credentials; repeat split; reflexivity.
    + intros w. apply same_credentials_refl.
  - intros _ w.
    destruct (load_homedoc_hrefs_frame w)
      as (_ & _ & Ha & Hu & Hk & _ & _ & Hc & Hi).
    unfold same_credentials. repeat split; assumption.
Qed.

(** ** Endpoints the transport selector cannot serve *)

Lemma perform_http_unsupported
    (method : string) (headers href request_body : pyval) (w : World) (u : string) :
  _endpoint (self w) = VStr u ->
  ~ supported_scheme (scheme (urlparse u)) ->
  _perform_http json_dumps json_loads urlparse server
    method headers href request_body w = (Raise (NameError "href"), w).
Proof.
  intros Hep Hs. unfold _perform_http. apply bind_raise.
  exact (http_connect_unsupported urlparse w u Hep Hs).
Qed.

(** X6: on an endpoint whose scheme is neither [http] nor [https], the
    transport selector raises [NameError] for the name [href], which the
    method does not bind, where its text builds a [ClientException]; it makes
    no connection.  The request executor raises the same error before
    anything is sent. *)
Theorem transport_unsupported_scheme
    (method : string) (headers href request_body : pyval) (w : World) (u : string) :
  _endpoint (self w) = VStr u ->
  ~ supported_scheme (scheme (urlparse u)) ->
  _http_connect urlparse w = (Raise (NameError "href"), w) /\
  _perform_http json_dumps json_loads urlparse server
    method headers href request_body w = (Raise (NameError "href"), w).
Proof.
  intros Hep Hs. split.
  - exact (http_connect_unsupported urlparse w u Hep Hs).
  - exact (perform_http_unsupported method headers href request_body w u Hep Hs).
Qed.

(** X7: on such an endpoint every queue operation that reaches the request
    executor raises that [NameError] with nothing sent; the handlers of
    [get_queue] and [delete_queue] do not catch it, and the generator of
    [get_queues] raises it at its first step and is finished. *)
Theorem queue_operations_unsupported_scheme
    (queue_name ttl headers : pyval) (w : World) (u : string)
    (tmpl href queues_href : pyval) :
  guards_pass w ->
  _endpoint (self w) = VStr u ->
  ~ supported_scheme (scheme (urlparse u)) ->
  attrs (self w) !! "queue_href" = Some tmpl ->
  attrs (self w) !! "queues_href" = Some queues_href ->
  proc_template tmpl [("queue_name", queue_name)] = Ok href ->
  create_queue proc_template json_dumps json_loads urlparse server
    queue_name ttl headers w = (Raise (NameError "href"), w)
  /\ get_queue proc_template json_dumps json_loads urlparse server
       queue_name headers w = (Raise (NameError "href"), w)
  /\ delete_queue proc_template json_dumps json_loads urlparse server
       queue_name headers w = (Raise (NameError "href"), w)
  /\ gen_next json_dumps json_loads urlparse server (GenCreated headers) w
     = (Raise (NameError "href"), GenFinished, w).
Proof.
  intros Hg Hep Hs Htmpl Hqs Hpt.
  repeat split.
  - unfold create_queue. rewrite (guards_pass_run _ w Hg).
    rewrite (bind_run _ _ w w tmpl (getattr_run _ _ _ Htmpl)).
    unfold lift at 1. rewrite Hpt. unfold bind at 1.
    apply bind_raise.
    exact (perform_http_unsupported "PUT" headers href _ w u Hep Hs).
  - unfold get_queue. rewrite (guards_pass_run _ w Hg).
    rewrite (bind_run _ _ w w tmpl (getattr_run _ _ _ Htmpl)).
    unfold lift at 1. rewrite Hpt. unfold bind at 1.
    apply bind_raise. unfold try_except_ClientException.
    rewrite (perform_http_unsupported "GET" headers href (VStr "") w u Hep Hs).
    reflexivity.
  - unfold delete_queue. rewrite (guards_pass_run _ w Hg).
    rewrite (bind_run _ _ w w tmpl (getattr_run _ _ _ Htmpl)).
    unfold lift at 1. rewrite Hpt. unfold bind at 1.
    unfold try_except_ClientException.
    rewrite (bind_run _ _ w w tmpl (getattr_run _ _ _ Htmpl)).
    unfold lift at 1. rewrite Hpt. unfold bind at 1.
    rewrite (bind_raise _ _ w w (NameError "href")
               (perform_http_unsupported "DELETE" headers href (VStr "") w u Hep Hs)).
    reflexivity.
  - cbn [gen_next]. unfold get_queues_fetch.
    rewrite (bind_run _ _ w w queues_href (getattr_run _ _ _ Hqs)).
    rewrite (bind_raise _ _ w w (NameError "href")
               (perform_http_unsupported "GET" headers queues_href (VStr "") w u Hep Hs)).
    reflexivity.
Qed.

(** ** One call, one exchange *)

(** X8: on an endpoint with a supported scheme, whatever the status and the
    body of the response, one call of [_perform_http] makes exactly one new
    connection, bound to the endpoint's network location, and sends exactly
    one request on it, with the method, the href and the headers it was
    given and with its body as text (a string as it is, any other value
    JSON-encoded).  The connections made earlier and the session are not
    touched, and the new connection is closed exactly when the call
    returns. *)
Theorem perform_http_single_exchange
    (method : string) (headers href request_body : pyval) (w : World) (u : string) :
  _endpoint (self w) = VStr u ->
  supported_scheme (scheme (urlparse u)) ->
  let run := _perform_http json_dumps json_loads urlparse server
               method headers href request_body w in
  let rq := mkRequest method href
              (match request_body with
               | VStr s => s
               | v => json_dumps v
               end) headers in
  snd run = exchanged (selected (urlparse u)) rq (negb (raised (fst run))) w.
Proof.
  intros Hep Hs run rq. subst run.
  rewrite (perform_http_run json_dumps json_loads urlparse server
             method headers href request_body w u Hep Hs).
  change (serialize_body json_dumps request_body) with (rq_body rq).
  change (mkRequest method href (rq_body rq) headers) with rq.
  repeat match goal with
         | |- context [if ?b then _ else _] => destruct b
         | |- context [match json_loads ?s with _ => _ end] =>
             destruct (json_loads s)
         end; reflexivity.
Qed.

(** X9: on an endpoint with a supported scheme, a call of [_perform_http]
    leaves one more socket open than before exactly when it raises, be it the
    [ClientException] of an error status or the [ValueError] of a body that
    is no JSON text; a call that returns leaves as many open as before. *)
Theorem perform_http_leaks_when_it_raises
    (method : string) (headers href request_body : pyval) (w : World) (u : string) :
  _endpoint (self w) = VStr u ->
  supported_scheme (scheme (urlparse u)) ->
  let run := _perform_http json_dumps json_loads urlparse server
               method headers href request_body w in
  open_sockets (snd run)
  = (open_sockets w + (if raised (fst run) then 1 else 0))%nat.
Proof.
  intros Hep Hs run. subst run.
  rewrite (perform_http_run json_dumps json_loads urlparse server
             method headers href request_body w u Hep Hs).
  set (r := server _).
  destruct (Z.eqb (status r / 100) 2);
    [ destruct (0 <? String.length (content r))%nat;
      [ destruct (json_loads (content r)) | ] | ];
    cbn [fst snd raised]; apply open_sockets_exchanged.
Qed.

(** ** The header mapping *)

Lemma dict_fold_absent (l : list (string * string)) (m : gmap string string)
    (name : string) :
  name ∉ map fst l ->
  foldl (fun m kv => <[fst kv := snd kv]> m) m l !! name = m !! name.
Proof.
  revert m. induction l as [| [k v] l IH]; intros m Hn; [reflexivity |].
  cbn [foldl fst snd]. rewrite IH.
  - apply lookup_insert_ne. intros ->. apply Hn. cbn. left.
  - intros Hin. apply Hn. cbn. right. exact Hin.
Qed.

Lemma dict_last_wins (l1 l2 : list (string * string)) (name v : string) :
  name ∉ map fst l2 ->
  dict (l1 ++ (name, v) :: l2) !! name = Some v.
Proof.
  intros Hn. unfold dict. rewrite foldl_app. cbn [foldl fst snd].
  rewrite (dict_fold_absent l2 _ name Hn). apply lookup_insert_eq.
Qed.

Lemma dict_absent (l : list (string * string)) (name : string) :
  name ∉ map fst l -> dict l !! name = None.
Proof.
  intros Hn. unfold dict. rewrite (dict_fold_absent l _ name Hn).
  apply lookup_empty.
Qed.

(** X10: when [_perform_http] returns, the header mapping it returns gives
    for a header name the value of the last header of the response with that
    name, and nothing for a name the response does not have. *)
Theorem perform_http_header_mapping
    (method : string) (headers href request_body : pyval) (w : World) (u : string)
    (h : gmap string string) (b : pyval) :
  _endpoint (self w) = VStr u ->
  supported_scheme (scheme (urlparse u)) ->
  let r := server (mkRequest method href
                     (serialize_body json_dumps request_body) headers) in
  fst (_perform_http json_dumps json_loads urlparse server
         method headers href request_body w) = Ok (h, b) ->
  (forall l1 l2 name v,
     getheaders r = l1 ++ (name, v) :: l2 -> name ∉ map fst l2 ->
     h !! name = Some v)
  /\ (forall name, name ∉ map fst (getheaders r) -> h !! name = None).
Proof.
  intros Hep Hs r.
  rewrite (perform_http_run json_dumps json_loads urlparse server
             method headers href request_body w u Hep Hs).
  fold r. intros Hrun.
  assert (Hh : h = dict (getheaders r)).
  { destruct (Z.eqb (status r / 100) 2);
      [ destruct (0 <? String.length (content r))%nat;
        [ destruct (json_loads (content r)) | ] | ];
      cbn [fst] in Hrun; congruence. }
  subst h. split.
  - intros l1 l2 name v Hl Hn. rewrite Hl. apply dict_last_wins. exact Hn.
  - intros name Hn. apply dict_absent. exact Hn.
Qed.

(** ** The queue operations on the other statuses *)

(** X11: [create_queue] does not refine any status.  On a session that passes
    the guards, when the response to its PUT has a status outside
    [200, 299], the 404 included, it raises the [ClientException] of the
    request executor with the href, the method PUT, the status and the body
    as read, and returns no handle. *)
Theorem create_queue_error_status
    (queue_name ttl headers : pyval) (w : World) (u : string)
    (tmpl href : pyval) :
  guards_pass w ->
  _endpoint (self w) = VStr u ->
  supported_scheme (scheme (urlparse u)) ->
  attrs (self w) !! "queue_href" = Some tmpl ->
  proc_template tmpl [("queue_name", queue_name)] = Ok href ->
  let body := VDict [("messages", VDict [("ttl", ttl)])] in
  let rq := mkRequest "PUT" href (json_dumps body) headers in
  ~ (200 <= status (server rq) <= 299) ->
  create_queue proc_template json_dumps json_loads urlparse server
      queue_name ttl headers w =
    (Raise (ClientException href "PUT" (status (server rq)) (content (server rq))),
     exchanged (selected (urlparse u)) rq false w).
Proof.
  intros Hg Hep Hs Htmpl Hpt body rq Hst.
  unfold create_queue. rewrite (guards_pass_run _ w Hg).
  rewrite (bind_run _ _ w w tmpl (getattr_run _ _ _ Htmpl)).
  unfold lift at 1. rewrite Hpt. unfold bind at 1. fold body.
  unfold bind.
  rewrite (perform_http_run json_dumps json_loads urlparse server
             "PUT" headers href body w u Hep Hs).
  change (serialize_body json_dumps body) with (json_dumps body). fold rq.
  apply status_not_2xx in Hst. rewrite Hst. reflexivity.
Qed.

(** X12: on a session that passes the guards, when the response to the GET
    of [get_queue] has a status in [200, 299], the handle returned has the
    expanded href, the given name and, as metadata, the decoded body; for an
    empty body the metadata is the empty string; and for a body that is no
    JSON text the decoder's [ValueError] passes the handler, which catches
    [ClientException] only. *)
Theorem get_queue_success
    (queue_name headers : pyval) (w : World) (u : string) (tmpl href : pyval) :
  guards_pass w ->
  _endpoint (self w) = VStr u ->
  supported_scheme (scheme (urlparse u)) ->
  attrs (self w) !! "queue_href" = Some tmpl ->
  proc_template tmpl [("queue_name", queue_name)] = Ok href ->
  let r := server (mkRequest "GET" href "" headers) in
  200 <= status r <= 299 ->
  fst (get_queue proc_template json_dumps json_loads urlparse server
         queue_name headers w) =
    if String.eqb (content r) "" then Ok (mkQueue href queue_name (VStr ""))
    else match json_loads (content r) with
         | Some v => Ok (mkQueue href queue_name v)
         | None => Raise (ValueError "No JSON object could be decoded")
         end.
Proof.
  intros Hg Hep Hs Htmpl Hpt r Hst.
  unfold get_queue. rewrite (guards_pass_run _ w Hg).
  rewrite (bind_run _ _ w w tmpl (getattr_run _ _ _ Htmpl)).
  unfold lift at 1. rewrite Hpt. unfold bind at 1.
  unfold bind, try_except_ClientException.
  rewrite (perform_http_run json_dumps json_loads urlparse server
             "GET" headers href (VStr "") w u Hep Hs).
  change (serialize_body json_dumps (VStr "")) with "". fold r.
  apply status_2xx in Hst. rewrite Hst.
  destruct (String.eqb_spec (content r) "") as [Hc | Hc].
  - rewrite (proj2 (length_zero_empty _) Hc). rewrite Hc. reflexivity.
  - rewrite (proj2 (length_pos_nonempty _) Hc).
    destruct (json_loads (content r)); reflexivity.
Qed.

(** X13: on a session that passes the guards, when the response to the
    DELETE of [delete_queue] has a status in [200, 299] and a body that is
    empty or a JSON text, [delete_queue] returns nothing, after one DELETE
    to the expanded href on a connection it has closed. *)
Theorem delete_queue_success
    (queue_name headers : pyval) (w : World) (u : string) (tmpl href : pyval) :
  guards_pass w ->
  _endpoint (self w) = VStr u ->
  supported_scheme (scheme (urlparse u)) ->
  attrs (self w) !! "queue_href" = Some tmpl ->
  proc_template tmpl [("queue_name", queue_name)] = Ok href ->
  let rq := mkRequest "DELETE" href "" headers in
  200 <= status (server rq) <= 299 ->
  content (server rq) = "" \/ (exists v, json_loads (content (server rq)) = Some v) ->
  delete_queue proc_template json_dumps json_loads urlparse server
      queue_name headers w =
    (Ok tt, exchanged (selected (urlparse u)) rq true w).
Proof.
  intros Hg Hep Hs Htmpl Hpt rq Hst Hbody.
  unfold delete_queue. rewrite (guards_pass_run _ w Hg).
  rewrite (bind_run _ _ w w tmpl (getattr_run _ _ _ Htmpl)).
  unfold lift at 1. rewrite Hpt. unfold bind at 1.
  unfold try_except_ClientException.
  rewrite (bind_run _ _ w w tmpl (getattr_run _ _ _ Htmpl)).
  unfold lift at 1. rewrite Hpt. unfold bind.
  rewrite (perform_http_run json_dumps json_loads urlparse server
             "DELETE" headers href (VStr "") w u Hep Hs).
  change (serialize_body json_dumps (VStr "")) with "". fold rq.
  apply status_2xx in Hst. rewrite Hst.
  destruct Hbody as [Hc | [v Hv]].
  - rewrite (proj2 (length_zero_empty _) Hc). reflexivity.
  - destruct (0 <? String.length (content (server rq)))%nat.
    + rewrite Hv. reflexivity.
    + reflexivity.
Qed.

(** ** Listing: errors and edges *)

(** X14: [get_queues] does not refine any status either.  On a session that
    passes the guards, when the response to the GET on the queues collection
    has a status outside [200, 299], the 404 included, the first step of the
    generator raises the [ClientException] of the request executor; the
    generator is then finished, and [list] of it raises that exception. *)
Theorem get_queues_error_status
    (headers : pyval) (w : World) (u : string) (href : pyval) :
  _endpoint (self w) = VStr u ->
  supported_scheme (scheme (urlparse u)) ->
  attrs (self w) !! "queues_href" = Some href ->
  let rq := mkRequest "GET" href "" headers in
  let r := server rq in
  ~ (200 <= status r <= 299) ->
  let e := ClientException href "GET" (status r) (content r) in
  let w' := exchanged (selected (urlparse u)) rq false w in
  gen_next json_dumps json_loads urlparse server (GenCreated headers) w
    = (Raise e, GenFinished, w')
  /\ forall fuel : nat,
       gen_list json_dumps json_loads urlparse server (S fuel)
         (GenCreated headers) w = Some (Raise e, w').
Proof.
  intros Hep Hs Hhref rq r Hst e w'.
  assert (Hfetch :
    get_queues_fetch json_dumps json_loads urlparse server headers w
    = (Raise e, w')).
  { unfold get_queues_fetch.
    rewrite (bind_run _ _ w w href (getattr_run _ _ _ Hhref)).
    apply bind_raise.
    rewrite (perform_http_run json_dumps json_loads urlparse server
               "GET" headers href (VStr "") w u Hep Hs).
    change (serialize_body json_dumps (VStr "")) with "". fold rq. fold r.
    apply status_not_2xx in Hst. rewrite Hst. reflexivity. }
  split.
  - cbn [gen_next]. rewrite Hfetch. reflexivity.
  - intros fuel. cbn [gen_list gen_next]. rewrite Hfetch. reflexivity.
Qed.

(** X15: when the response to the GET on the queues collection has a status
    in [200, 299] but not the shape of a listing, the first step of the
    generator raises after the request: [TypeError] for an empty body, since
    the result is then the empty string and a string has no member
    [queues]; [KeyError] for a JSON object without the member [queues]. *)
Theorem get_queues_ill_shaped_body
    (headers : pyval) (w : World) (u : string) (href : pyval) :
  _endpoint (self w) = VStr u ->
  supported_scheme (scheme (urlparse u)) ->
  attrs (self w) !! "queues_href" = Some href ->
  let rq := mkRequest "GET" href "" headers in
  let r := server rq in
  200 <= status r <= 299 ->
  let w' := exchanged (selected (urlparse u)) rq true w in
  (content r = "" ->
     gen_next json_dumps json_loads urlparse server (GenCreated headers) w
     = (Raise (TypeError "string indices must be integers, not str"),
        GenFinished, w'))
  /\ (forall d, content r <> "" -> json_loads (content r) = Some (VDict d) ->
        assoc "queues" d = None ->
        gen_next json_dumps json_loads urlparse server (GenCreated headers) w
        = (Raise (KeyError "queues"), GenFinished, w')).
Proof.
  intros Hep Hs Hhref rq r Hst w'.
  apply status_2xx in Hst.
  assert (Hrun :
    _perform_http json_dumps json_loads urlparse server "GET" headers href
      (VStr "") w
    = if (0 <? String.length (content r))%nat then
        match json_loads (content r) with
        | Some v => (Ok (dict (getheaders r), v), w')
        | None => (Raise (ValueError "No JSON object could be decoded"),
                   exchanged (selected (urlparse u)) rq false w)
        end
      else (Ok (dict (getheaders r), VStr (content r)), w')).
  { rewrite (perform_http_run json_dumps json_loads urlparse server
               "GET" headers href (VStr "") w u Hep Hs).
    change (serialize_body json_dumps (VStr "")) with "". fold rq. fold r.
    rewrite Hst. reflexivity. }
  split.
  - intros Hc. cbn [gen_next]. unfold get_queues_fetch.
    rewrite (bind_run _ _ w w href (getattr_run _ _ _ Hhref)).
    unfold bind at 1. rewrite Hrun.
    rewrite (proj2 (length_zero_empty _) Hc). rewrite Hc. reflexivity.
  - intros d Hc Hd Hq. cbn [gen_next]. unfold get_queues_fetch.
    rewrite (bind_run _ _ w w href (getattr_run _ _ _ Hhref)).
    unfold bind at 1. rewrite Hrun.
    rewrite (proj2 (length_pos_nonempty _) Hc), Hd.
    unfold bind, lift. cbn [snd py_getitem]. rewrite Hq. reflexivity.
Qed.

Lemma gen_list_stops (good : list pyval) (qs : list Queue) (bad : pyval)
    (rest : list pyval) (e : exn) :
  Forall2 handle_of good qs ->
  py_getitem bad "name" = Raise e ->
  forall (w : World) (fuel : nat),
  (length good < fuel)%nat ->
  gen_list json_dumps json_loads urlparse server fuel
    (GenSuspended (good ++ bad :: rest)) w = Some (Raise e, w).
Proof.
  intros Hgood Hbad. induction Hgood as [| x q good qs Hq Hrest IH];
    intros w fuel Hfuel.
  - destruct fuel as [| fuel]; [cbn in Hfuel; lia |].
    cbn [app gen_list gen_next get_queues_loop].
    unfold get_queues_yield, bind, lift. rewrite Hbad. reflexivity.
  - destruct fuel as [| fuel]; [cbn in Hfuel; lia |].
    cbn [app gen_list gen_next get_queues_loop].
    rewrite (get_queues_yield_run x q w Hq).
    rewrite IH; [reflexivity | cbn in Hfuel; lia].
Qed.

(** X16: the generator stops at the first element it cannot make a handle
    of.  A step on a well-shaped element yields its handle and keeps the
    elements after it; a step on an element whose [name] cannot be read
    raises the error of that read and finishes the generator, so the
    elements after it are never visited.  Hence, when the [queues] list of
    the response is well-shaped up to such an element, [list] of the
    generator raises that error, whatever follows the element. *)
Theorem get_queues_stops_at_bad_element
    (headers : pyval) (w : World) (u : string) (href body : pyval)
    (good : list pyval) (qs : list Queue) (bad : pyval) (rest : list pyval)
    (e : exn) :
  _endpoint (self w) = VStr u ->
  supported_scheme (scheme (urlparse u)) ->
  attrs (self w) !! "queues_href" = Some href ->
  let rq := mkRequest "GET" href "" headers in
  200 <= status (server rq) <= 299 ->
  content (server rq) <> "" ->
  json_loads (content (server rq)) = Some body ->
  py_getitem body "queues" = Ok (VList (good ++ bad :: rest)) ->
  Forall2 handle_of good qs ->
  py_getitem bad "name" = Raise e ->
  (forall x q tl w0, handle_of x q ->
     gen_next json_dumps json_loads urlparse server (GenSuspended (x :: tl)) w0
     = (Ok (Some q), GenSuspended tl, w0))
  /\ (forall w0,
        gen_next json_dumps json_loads urlparse server
          (GenSuspended (bad :: rest)) w0 = (Raise e, GenFinished, w0))
  /\ (forall fuel : nat, (length good < fuel)%nat ->
        gen_list json_dumps json_loads urlparse server fuel
          (GenCreated headers) w
        = Some (Raise e, exchanged (selected (urlparse u)) rq true w)).
Proof.
  intros Hep Hs Hhref rq Hst Hne Hbody Hqueues Hgood Hbad.
  split; [| split].
  - intros x q tl w0 Hq. cbn [gen_next get_queues_loop].
    rewrite (get_queues_yield_run x q w0 Hq). reflexivity.
  - intros w0. cbn [gen_next get_queues_loop].
    unfold get_queues_yield, bind, lift. rewrite Hbad. reflexivity.
  - intros fuel Hfuel.
    rewrite (gen_list_created json_dumps json_loads urlparse server
               headers (good ++ bad :: rest) w
               (exchanged (selected (urlparse u)) rq true w)).
    + apply (gen_list_stops good qs bad rest e Hgood Hbad). exact Hfuel.
    + unfold get_queues_fetch.
      rewrite (bind_run _ _ w w href (getattr_run _ _ _ Hhref)).
      unfold bind at 1.
      rewrite (perform_http_run json_dumps json_loads urlparse server
                 "GET" headers href (VStr "") w u Hep Hs).
      change (serialize_body json_dumps (VStr "")) with "". fold rq.
      apply status_2xx in Hst. rewrite Hst.
      rewrite (proj2 (length_pos_nonempty _) Hne), Hbody.
      unfold bind, lift. cbn [snd]. rewrite Hqueues. reflexivity.
Qed.

Lemma get_queues_loop_world (rest : list pyval) (w : World) :
  snd (get_queues_loop rest w) = w.
Proof.
  destruct rest as [| x rest]; [reflexivity |].
  cbn [get_queues_loop].
  unfold get_queues_yield, bind, lift, ret.
  destruct (py_getitem x "name"); [| reflexivity].
  destruct (py_getitem x "href"); [| reflexivity].
  destruct (py_getitem x "metadata"); reflexivity.
Qed.

(** X17: only the first step of the generator talks to the service.  A step
    of a generator that has started leaves the world as it is, whatever the
    elements left, and a finished generator stays finished: it stops again
    at every further step, so [list] of it is empty. *)
Theorem started_generator_sends_nothing (rest : list pyval) (w : World) :
  snd (gen_next json_dumps json_loads urlparse server (GenSuspended rest) w) = w
  /\ gen_next json_dumps json_loads urlparse server GenFinished w
     = (Ok None, GenFinished, w)
  /\ forall fuel : nat,
       gen_list json_dumps json_loads urlparse server (S fuel) GenFinished w
       = Some (Ok [], w).
Proof.
  split; [| split].
  - apply get_queues_loop_world.
  - reflexivity.
  - intros fuel. reflexivity.
Qed.

(** ** Before the request *)

(** X18: a session made by the constructor passes the guards as soon as it
    was given a client id, a token and an endpoint, but it has no template
    until [connect()] has run: on such a session [create_queue],
    [get_queue] and [delete_queue] raise [AttributeError] for [queue_href],
    and the first step of the generator of [get_queues] raises it for
    [queues_href]; nothing is sent. *)
Theorem queue_operations_need_templates
    (client_id auth_ep user key : pyval) (kwargs : gmap string pyval)
    (queue_name ttl headers : pyval) :
  let w := fresh (__init__ client_id auth_ep user key kwargs) in
  truthy client_id = true ->
  truthy (kwargs_get kwargs "token") = true ->
  truthy (kwargs_get kwargs "endpoint") = true ->
  create_queue proc_template json_dumps json_loads urlparse server
    queue_name ttl headers w = (Raise (AttributeError "queue_href"), w)
  /\ get_queue proc_template json_dumps json_loads urlparse server
       queue_name headers w = (Raise (AttributeError "queue_href"), w)
  /\ delete_queue proc_template json_dumps json_loads urlparse server
       queue_name headers w = (Raise (AttributeError "queue_href"), w)
  /\ get_queues headers w = (Ok (GenCreated headers), w)
  /\ gen_next json_dumps json_loads urlparse server (GenCreated headers) w
     = (Raise (AttributeError "queues_href"), GenFinished, w).
Proof.
  intros w Hc Ht He.
  assert (Hg : guards_pass w) by (repeat split; assumption).
  assert (Hq : getattr "queue_href" w = (Raise (AttributeError "queue_href"), w)).
  { apply getattr_missing. reflexivity. }
  assert (Hqs : getattr "queues_href" w = (Raise (AttributeError "queues_href"), w)).
  { apply getattr_missing. reflexivity. }
  split; [| split; [| split; [| split]]].
  - unfold create_queue. rewrite (guards_pass_run _ w Hg).
    apply bind_raise. exact Hq.
  - unfold get_queue. rewrite (guards_pass_run _ w Hg).
    apply bind_raise. exact Hq.
  - unfold delete_queue. rewrite (guards_pass_run _ w Hg).
    apply bind_raise. exact Hq.
  - unfold get_queues. rewrite (guards_pass_run _ w Hg). reflexivity.
  - cbn [gen_next]. unfold get_queues_fetch.
    rewrite (bind_raise _ _ w w _ Hqs). reflexivity.
Qed.

(** X19: when the template cannot be expanded with the queue name,
    [create_queue], [get_queue] and [delete_queue] raise the error of the
    expansion, whatever it is, and the world is as it was: no connection is
    made and nothing is sent. *)
Theorem template_failure_sends_nothing
    (queue_name ttl headers : pyval) (w : World) (tmpl : pyval) (e : exn) :
  guards_pass w ->
  attrs (self w) !! "queue_href" = Some tmpl ->
  proc_template tmpl [("queue_name", queue_name)] = Raise e ->
  create_queue proc_template json_dumps json_loads urlparse server
    queue_name ttl headers w = (Raise e, w)
  /\ get_queue proc_template json_dumps json_loads urlparse server
       queue_name headers w = (Raise e, w)
  /\ delete_queue proc_template json_dumps json_loads urlparse server
       queue_name headers w = (Raise e, w).
Proof.
  intros Hg Htmpl Hpt.
  split; [| split].
  - unfold create_queue. rewrite (guards_pass_run _ w Hg).
    rewrite (bind_run _ _ w w tmpl (getattr_run _ _ _ Htmpl)).
    unfold lift at 1. rewrite Hpt. reflexivity.
  - unfold get_queue. rewrite (guards_pass_run _ w Hg).
    rewrite (bind_run _ _ w w tmpl (getattr_run _ _ _ Htmpl)).
    unfold lift at 1. rewrite Hpt. reflexivity.
  - unfold delete_queue. rewrite (guards_pass_run _ w Hg).
    rewrite (bind_run _ _ w w tmpl (getattr_run _ _ _ Htmpl)).
    unfold lift at 1. rewrite Hpt. reflexivity.
Qed.

(** ** The session under the queue operations *)

Lemma same_session_refl (w : World) : same_session w w.
Proof. reflexivity. Qed.

Lemma same_session_trans (w1 w2 w3 : World) :
  same_session w1 w2 -> same_session w2 w3 -> same_session w1 w3.
Proof. unfold same_session. congruence. Qed.

Lemma preserves_try {A} (R : World -> World -> Prop) (c : M A) (h : exn -> M A) :
  (forall w1 w2 w3, R w1 w2 -> R w2 w3 -> R w1 w3) ->
  preserves R c -> (forall e, preserves R (h e)) ->
  preserves R (try_except_ClientException c h).
Proof.
  intros Htrans Hc Hh w. unfold try_except_ClientException.
  specialize (Hc w). destruct (c w) as [[a | e] w1]; cbn [snd] in *.
  - exact Hc.
  - destruct (is_ClientException e); [| exact Hc].
    eapply Htrans; [exact Hc | apply Hh].
Qed.

Lemma preserves_guards {A} (R : World -> World -> Prop) (f : M A) :
  (forall w, R w w) -> preserves R f ->
  preserves R (require_clientid (require_authenticated f)).
Proof.
  intros Hrefl Hf w.
  unfold require_clientid, require_authenticated, bind, get_self.
  destruct (truthy (_client_id (self w))); [| apply Hrefl].
  destruct (truthy (_token (self w)) && truthy (_endpoint (self w)));
    [apply Hf | apply Hrefl].
Qed.

Ltac session_frame_with tac :=
  repeat first
    [ tac
    | apply (preserves_pure _ _ same_session_refl); intros ?;
      first [ apply getattr_pure | reflexivity ]
    | apply (preserves_guards _ _ same_session_refl)
    | apply (preserves_try _ _ _ same_session_trans); [| intros ? ]
    | apply (preserves_bind _ _ _ same_session_refl same_session_trans);
      [| intros ? ]
    | match goal with
      | |- preserves _ (if ?b then _ else _) => destruct b
      | |- preserves _ (match ?x with _ => _ end) => destruct x
      end
    | solve [ intros ?; reflexivity ] ].

Lemma perform_http_same_session
    (method : string) (headers href request_body : pyval) :
  preserves same_session
    (_perform_http json_dumps json_loads urlparse server
       method headers href request_body).
Proof.
  unfold _perform_http, _http_connect, py_urlparse, conn_request,
    conn_getresponse, get_conn, response_read, conn_close, py_json_loads.
  session_frame_with fail.
  intros w. unfold same_session.
  destruct (conns w !! _); reflexivity.
Qed.

Ltac session_frame :=
  session_frame_with ltac:(apply perform_http_same_session).

(** X20: no queue operation changes the session object.  Whatever the
    service answers and whether the operation returns or raises, the token,
    the endpoint, the client id, the credentials and the templates are after
    [_perform_http], [create_queue], [get_queue], [delete_queue],
    [get_queue_metadata], [get_queues] and every step of its generator what
    they were before: only [connect()] writes to the session. *)
Theorem queue_operations_preserve_session
    (method : string) (queue_name ttl headers href request_body : pyval)
    (g : get_queues_gen) (w : World) :
  self (snd (_perform_http json_dumps json_loads urlparse server
               method headers href request_body w)) = self w
  /\ self (snd (create_queue proc_template json_dumps json_loads urlparse
                  server queue_name ttl headers w)) = self w
  /\ self (snd (get_queue proc_template json_dumps json_loads urlparse server
                  queue_name headers w)) = self w
  /\ self (snd (delete_queue proc_template json_dumps json_loads urlparse
                  server queue_name headers w)) = self w
  /\ self (snd (get_queue_metadata proc_template queue_name headers w)) = self w
  /\ self (snd (get_queues headers w)) = self w
  /\ self (snd (gen_next json_dumps json_loads urlparse server g w)) = self w.
Proof.
  split; [| split; [| split; [| split; [| split; [| split]]]]].
  - apply perform_http_same_session.
  - revert w. change (preserves same_session
      (create_queue proc_template json_dumps json_loads urlparse server
         queue_name ttl headers)).
    unfold create_queue. session_frame.
  - revert w. change (preserves same_session
      (get_queue proc_template json_dumps json_loads urlparse server
         queue_name headers)).
    unfold get_queue, not_found_or_reraise. session_frame.
  - revert w. change (preserves same_session
      (delete_queue proc_template json_dumps json_loads urlparse server
         queue_name headers)).
    unfold delete_queue, not_found_or_reraise. session_frame.
  - revert w. change (preserves same_session
      (get_queue_metadata proc_template queue_name headers)).
    unfold get_queue_metadata. session_frame.
  - revert w. change (preserves same_session (get_queues headers)).
    unfold get_queues. session_frame.
  - destruct g as [hd | rest |]; cbn [gen_next].
    + assert (Hf : preserves same_session
                (get_queues_fetch json_dumps json_loads urlparse server hd)).
      { unfold get_queues_fetch. session_frame. }
      specialize (Hf w). unfold same_session in Hf.
      destruct (get_queues_fetch json_dumps json_loads urlparse server hd w)
        as [[l | e] w1]; cbn [snd] in *; [| exact Hf].
      rewrite <- Hf. rewrite (get_queues_loop_world l w1). reflexivity.
    + rewrite (get_queues_loop_world rest w). reflexivity.
    + reflexivity.
Qed.

(** ** From the constructor to a queue *)

Lemma connect_authenticates_run (w : World) (ep : string) (tok : pyval) :
  truthy (_token (self w)) = false ->
  authenticate (_auth_endpoint (self w)) (_user (self w)) (_key (self w))
    (_endpoint (self w)) (_cacert (self w)) = Ok (VStr ep, tok) ->
  connect authenticate w =
    (Ok tt,
     with_templates ep
       (mkWorld
          (mkConnection (_auth_endpoint (self w)) (_user (self w))
             (_key (self w)) tok (VStr ep) (_cacert (self w))
             (_client_id (self w)) (attrs (self w)))
          (conns w)
          (trace w ++ [EvAuthenticate (_auth_endpoint (self w)) (_user (self w))
                         (_key (self w)) (_endpoint (self w))
                         (_cacert (self w))]))).
Proof.
  intros Htok Hauth.
  unfold connect. unfold bind at 1. unfold get_self at 1. cbv beta iota.
  rewrite Htok. cbn [negb].
  unfold bind at 1. unfold bind at 1. unfold log at 1. cbv beta iota.
  unfold bind at 1. unfold lift at 1. rewrite Hauth. cbv beta iota.
  cbn [fst snd].
  apply load_homedoc_hrefs_run. reflexivity.
Qed.

(** X21: the operations compose.  A session made with a client id and
    without a token, connected through an authenticator that grants a token
    and an [http] or [https] endpoint [ep], then asked to create a queue:
    the PUT goes to the expansion of the template
    [ep + "/queues/{queue_name}"], and on a response with a status in
    [200, 299] and an empty body the handle of the queue comes back; the
    authenticator was called once. *)
Theorem connect_then_create_queue
    (client_id auth_ep user key : pyval) (kwargs : gmap string pyval)
    (ep : string) (tok queue_name ttl headers href : pyval) :
  truthy client_id = true ->
  truthy (kwargs_get kwargs "token") = false ->
  authenticate auth_ep user key (kwargs_get kwargs "endpoint")
    (kwargs_get kwargs "cacert") = Ok (VStr ep, tok) ->
  truthy tok = true ->
  ep <> "" ->
  supported_scheme (scheme (urlparse ep)) ->
  proc_template (VStr (ep +:+ "/queues/{queue_name}"))
    [("queue_name", queue_name)] = Ok href ->
  let body := VDict [("messages", VDict [("ttl", ttl)])] in
  let rq := mkRequest "PUT" href (json_dumps body) headers in
  200 <= status (server rq) <= 299 ->
  content (server rq) = "" ->
  let run := bind (connect authenticate)
               (fun _ => create_queue proc_template json_dumps json_loads
                           urlparse server queue_name ttl headers)
               (fresh (__init__ client_id auth_ep user key kwargs)) in
  fst run = Ok (mkQueue href queue_name body) /\
  auth_calls (snd run) = 1%nat /\
  open_sockets (snd run) = 0%nat /\
  trace (snd run) =
    [EvAuthenticate auth_ep user key (kwargs_get kwargs "endpoint")
       (kwargs_get kwargs "cacert");
     EvRequest 0 rq; EvGetResponse 0; EvRead 0; EvClose 0].
Proof.
  intros Hc Htok Hauth Htt Hne Hs Hpt body rq Hst Hbody run.
  set (w := fresh (__init__ client_id auth_ep user key kwargs)) in *.
  pose proof (connect_authenticates_run w ep tok Htok Hauth) as Hrun.
  cbn [self conns trace fresh __init__ _auth_endpoint _user _key _endpoint
       _cacert _client_id attrs app] in Hrun.
  set (w1 := with_templates ep _) in Hrun.
  assert (Hq : attrs (self w1) !! "queue_href"
               = Some (VStr (ep +:+ "/queues/{queue_name}"))).
  { destruct (with_templates_lookup ep
                (mkWorld (mkConnection auth_ep user key tok (VStr ep)
                            (kwargs_get kwargs "cacert") client_id ∅) []
                   [EvAuthenticate auth_ep user key
                      (kwargs_get kwargs "endpoint")
                      (kwargs_get kwargs "cacert")]))
      as (_ & H2 & _).
    rewrite append_assoc in H2. exact H2. }
  assert (Hg : guards_pass w1).
  { unfold guards_pass. repeat split; try assumption.
    change (negb (String.eqb ep "") = true).
    destruct (String.eqb_spec ep ""); [contradiction | reflexivity]. }
  assert (Hcreate :
    create_queue proc_template json_dumps json_loads urlparse server
      queue_name ttl headers w1
    = (Ok (mkQueue href queue_name body),
       exchanged (selected (urlparse ep)) rq true w1)).
  { unfold create_queue. rewrite (guards_pass_run _ w1 Hg).
    rewrite (bind_run _ _ w1 w1 _ (getattr_run _ _ _ Hq)).
    unfold lift at 1. rewrite Hpt. unfold bind at 1. fold body.
    unfold bind.
    rewrite (perform_http_run json_dumps json_loads urlparse server
               "PUT" headers href body w1 ep eq_refl Hs).
    change (serialize_body json_dumps body) with (json_dumps body). fold rq.
    apply status_2xx in Hst. rewrite Hst.
    rewrite (proj2 (length_zero_empty _) Hbody). reflexivity. }
  subst run. rewrite (bind_run _ _ w w1 tt Hrun). rewrite Hcreate.
  cbn [fst snd]. split; [reflexivity | split; [| split]]; reflexivity.
Qed.

End FurtherProperties.

(** * Further concrete runs *)

Lemma ftp_not_supported :
  ~ supported_scheme (scheme (Url.urlparse "ftp://localhost/v1")).
Proof. intros [H | H]; vm_compute in H; discriminate H. Defined.

Lemma ftp_guards_pass : guards_pass ftp_connected.
Proof. repeat split; reflexivity. Defined.

(** The templates of the connected session. *)
Lemma templates_on_mock :
  exists w',
    _load_homedoc_hrefs Mock.connected = (Ok tt, w') /\
    same_but_attrs Mock.connected w' /\
    attrs (self w') !! "queues_href" = Some (url_of "/queues") /\
    attrs (self w') !! "queue_href" = Some (url_of "/queues/{queue_name}") /\
    attrs (self w') !! "messages_href"
      = Some (url_of "/queues/{queue_name}/messages") /\
    attrs (self w') !! "message_href"
      = Some (url_of "/queues/{queue_name}/messages/{message_id}") /\
    attrs (self w') !! "_claims_href" = Some (url_of "/queues/claims") /\
    attrs (self w') !! "_claim_href" = Some (url_of "/queues/claims/{claim_id}") /\
    attrs (self w') !! "actions_href" = Some (url_of "/actions") /\
    attrs (self w') !! "action_href" = Some (url_of "/actions/{action_id}").
Proof.
  exact (load_homedoc_hrefs_templates Mock.connected Mock.endpoint_url eq_refl).
Defined.

(** The first [connect()] of the session of the test double. *)
Lemma first_connect_on_mock :
  exists w',
    connect Mock.authenticate (fresh Mock.session) = (Ok tt, w') /\
    auth_calls w' = 1%nat /\
    token w' = (Ok (VStr "token-1"), w') /\
    endpoint w' = (Ok (VStr Mock.endpoint_url), w') /\
    attrs (self w') !! "queues_href" = Some (url_of "/queues") /\
    attrs (self w') !! "queue_href" = Some (url_of "/queues/{queue_name}").
Proof.
  exact (connect_without_token_authenticates Mock.authenticate
           (fresh Mock.session) Mock.endpoint_url (VStr "token-1")
           eq_refl eq_refl).
Defined.

(** [connect()] against an authenticator that denies. *)
Lemma denied_connect :
  exists w',
    connect deny (fresh Mock.session) = (Raise (AuthError "denied"), w') /\
    self w' = Mock.session /\
    conns w' = [] /\
    trace w' = [EvAuthenticate (VStr "http://auth.example/v1") (VStr "user")
                  (VStr "key") VNone VNone].
Proof.
  exact (connect_authentication_failure deny (fresh Mock.session)
           (AuthError "denied") eq_refl eq_refl).
Defined.

(** A third [connect()] on the connected session. *)
Lemma connect_again_on_mock :
  connect Mock.authenticate (snd (connect Mock.authenticate Mock.connected))
  = (Ok tt, snd (connect Mock.authenticate Mock.connected)).
Proof.
  exact (proj2 (connect_again_changes_nothing Mock.authenticate Mock.connected
                  Mock.endpoint_url eq_refl eq_refl)).
Defined.

(** A request on the session with the [ftp] endpoint. *)
Lemma ftp_request_raises :
  Mock.perform_http "GET" no_headers (VStr "ftp://localhost/v1/queues") (VStr "")
    ftp_connected
  = (Raise (NameError "href"), ftp_connected).
Proof.
  exact (proj2 (transport_unsupported_scheme Json.dumps Json.loads Url.urlparse
                  Mock.server "GET" no_headers
                  (VStr "ftp://localhost/v1/queues") (VStr "") ftp_connected
                  "ftp://localhost/v1" eq_refl ftp_not_supported)).
Defined.

(** [delete_queue("a", {})] on the session with the [ftp] endpoint. *)
Lemma ftp_delete_raises :
  Mock.delete_queue (VStr "a") no_headers ftp_connected
  = (Raise (NameError "href"), ftp_connected).
Proof.
  refine (proj1 (proj2 (proj2 (queue_operations_unsupported_scheme
            Misc.proc_template Json.dumps Json.loads Url.urlparse Mock.server
            (VStr "a") (VInt 60) no_headers ftp_connected "ftp://localhost/v1"
            (VStr "ftp://localhost/v1/queues/{queue_name}")
            (VStr "ftp://localhost/v1/queues/a")
            (VStr "ftp://localhost/v1/queues")
            ftp_guards_pass eq_refl ftp_not_supported _ _ _)))).
  - vm_compute. reflexivity.
  - vm_compute. reflexivity.
  - reflexivity.
Defined.

(** The world after a GET answered with 404. *)
Lemma exchange_on_mock :
  snd (Mock.perform_http "GET" no_headers (url_of "/queues/missing") (VStr "")
         Mock.connected)
  = exchanged (selected (Url.urlparse Mock.endpoint_url))
      (mkRequest "GET" (url_of "/queues/missing") "" no_headers) false
      Mock.connected.
Proof.
  refine (eq_trans (perform_http_single_exchange Json.dumps Json.loads
            Url.urlparse Mock.server "GET" no_headers
            (url_of "/queues/missing") (VStr "") Mock.connected
            Mock.endpoint_url eq_refl connected_scheme) _).
  vm_compute. reflexivity.
Defined.

(** A PUT answered with 201 leaves no socket open. *)
Lemma no_leak_on_mock :
  open_sockets (snd (Mock.perform_http "PUT" no_headers (url_of "/queues/q1")
                       (VStr "{}") Mock.connected))
  = 0%nat.
Proof.
  refine (eq_trans (perform_http_leaks_when_it_raises Json.dumps Json.loads
            Url.urlparse Mock.server "PUT" no_headers (url_of "/queues/q1")
            (VStr "{}") Mock.connected Mock.endpoint_url eq_refl
            connected_scheme) _).
  vm_compute. reflexivity.
Defined.

(** The content type of the answer to a GET. *)
Lemma content_type_on_mock :
  dict (getheaders (Mock.server
                      (mkRequest "GET" (url_of "/queues/a") "" no_headers)))
    !! "content-type"
  = Some "application/json".
Proof.
  refine (proj1 (perform_http_header_mapping Json.dumps Json.loads Url.urlparse
            Mock.server "GET" no_headers (url_of "/queues/a") (VStr "")
            Mock.connected Mock.endpoint_url
            (dict (getheaders (Mock.server
                     (mkRequest "GET" (url_of "/queues/a") "" no_headers))))
            (VDict [("messages", VDict [("ttl", VInt 60)])])
            eq_refl connected_scheme _)
            [] [] "content-type" "application/json" _ _).
  - vm_compute. reflexivity.
  - reflexivity.
  - cbn. apply not_elem_of_nil.
Defined.

(** [create_queue("x", 60, {})] against a 500. *)
Lemma create_x_on_mock :
  fst (Mock.create_queue (VStr "x") (VInt 60) no_headers Mock.connected)
  = Raise (ClientException (url_of "/queues/x") "PUT" 500 "internal error").
Proof.
  refine (f_equal fst (create_queue_error_status
            Misc.proc_template Json.dumps Json.loads Url.urlparse Mock.server
            (VStr "x") (VInt 60) no_headers Mock.connected Mock.endpoint_url
            (VStr (Mock.endpoint_url +:+ "/queues/{queue_name}"))
            (url_of "/queues/x")
            connected_guards_pass eq_refl connected_scheme
            connected_queue_href _ _)).
  - reflexivity.
  - vm_compute. intros [_ H]. apply H. reflexivity.
Defined.

(** [get_queue("a", {})] against a 200 with the metadata of the queue. *)
Lemma get_a_on_mock :
  fst (Mock.get_queue (VStr "a") no_headers Mock.connected)
  = Ok (mkQueue (url_of "/queues/a") (VStr "a")
          (VDict [("messages", VDict [("ttl", VInt 60)])])).
Proof.
  refine (eq_trans (get_queue_success
            Misc.proc_template Json.dumps Json.loads Url.urlparse Mock.server
            (VStr "a") no_headers Mock.connected Mock.endpoint_url
            (VStr (Mock.endpoint_url +:+ "/queues/{queue_name}"))
            (url_of "/queues/a")
            connected_guards_pass eq_refl connected_scheme
            connected_queue_href _ _) _).
  - reflexivity.
  - vm_compute. split; discriminate.
  - vm_compute. reflexivity.
Defined.

(** [delete_queue("a", {})] against a 204. *)
Lemma delete_a_on_mock :
  fst (Mock.delete_queue (VStr "a") no_headers Mock.connected) = Ok tt.
Proof.
  refine (f_equal fst (delete_queue_success
            Misc.proc_template Json.dumps Json.loads Url.urlparse Mock.server
            (VStr "a") no_headers Mock.connected Mock.endpoint_url
            (VStr (Mock.endpoint_url +:+ "/queues/{queue_name}"))
            (url_of "/queues/a")
            connected_guards_pass eq_refl connected_scheme
            connected_queue_href _ _ _)).
  - reflexivity.
  - vm_compute. split; discriminate.
  - left. reflexivity.
Defined.

Lemma connected_queues_href :
  attrs (self Mock.connected) !! "queues_href" = Some (url_of "/queues").
Proof. vm_compute. reflexivity. Defined.

(** The listing against a busy service. *)
Lemma listing_on_busy_server :
  gen_next Json.dumps Json.loads Url.urlparse busy_server
    (GenCreated no_headers) Mock.connected
  = (Raise (ClientException (url_of "/queues") "GET" 503 "busy"), GenFinished,
     exchanged (selected (Url.urlparse Mock.endpoint_url))
       (mkRequest "GET" (url_of "/queues") "" no_headers) false Mock.connected).
Proof.
  refine (proj1 (get_queues_error_status Json.dumps Json.loads Url.urlparse
            busy_server no_headers Mock.connected Mock.endpoint_url
            (url_of "/queues") eq_refl connected_scheme connected_queues_href _)).
  vm_compute. intros [_ H]. apply H. reflexivity.
Defined.

(** The listing against a service that answers with an empty body. *)
Lemma listing_on_silent_server :
  gen_next Json.dumps Json.loads Url.urlparse silent_server
    (GenCreated no_headers) Mock.connected
  = (Raise (TypeError "string indices must be integers, not str"), GenFinished,
     exchanged (selected (Url.urlparse Mock.endpoint_url))
       (mkRequest "GET" (url_of "/queues") "" no_headers) true Mock.connected).
Proof.
  refine (proj1 (get_queues_ill_shaped_body Json.dumps Json.loads Url.urlparse
            silent_server no_headers Mock.connected Mock.endpoint_url
            (url_of "/queues") eq_refl connected_scheme connected_queues_href _)
            _).
  - vm_compute. split; discriminate.
  - reflexivity.
Defined.

(** The listing whose second element has no name. *)
Lemma listing_on_flawed_server :
  gen_list Json.dumps Json.loads Url.urlparse flawed_server 2
    (GenCreated no_headers) Mock.connected
  = Some (Raise (KeyError "name"),
          exchanged (selected (Url.urlparse Mock.endpoint_url))
            (mkRequest "GET" (url_of "/queues") "" no_headers) true
            Mock.connected).
Proof.
  refine (proj2 (proj2 (get_queues_stops_at_bad_element
            Json.dumps Json.loads Url.urlparse flawed_server
            no_headers Mock.connected Mock.endpoint_url (url_of "/queues")
            flawed_listing [Mock.queue_a]
            [mkQueue (VStr "/queues/a") (VStr "a") (VDict [])]
            nameless_queue [Mock.queue_b] (KeyError "name")
            eq_refl connected_scheme connected_queues_href _ _ _ _ _ _))
            2%nat _).
  - vm_compute. split; discriminate.
  - vm_compute. discriminate.
  - vm_compute. reflexivity.
  - reflexivity.
  - repeat constructor.
  - reflexivity.
  - cbn. lia.
Defined.

(** A session given a token and an endpoint, and never connected. *)
Lemma create_queue_before_connect :
  let w := fresh (__init__ (VStr "client-1") (VStr "http://auth.example/v1")
                    (VStr "user") (VStr "key") preset_kwargs) in
  Mock.create_queue (VStr "q1") (VInt 60) no_headers w
  = (Raise (AttributeError "queue_href"), w).
Proof.
  refine (proj1 (queue_operations_need_templates
            Misc.proc_template Json.dumps Json.loads Url.urlparse Mock.server
            (VStr "client-1") (VStr "http://auth.example/v1") (VStr "user")
            (VStr "key") preset_kwargs (VStr "q1") (VInt 60) no_headers
            _ _ _)).
  - reflexivity.
  - vm_compute. reflexivity.
  - vm_compute. reflexivity.
Defined.

(** A queue name that is no string, which the expansion refuses. *)
Lemma create_queue_bad_name :
  Mock.create_queue (VInt 5) (VInt 60) no_headers Mock.connected
  = (Raise (TypeError "substitution is not a string"), Mock.connected).
Proof.
  refine (proj1 (template_failure_sends_nothing
            Misc.proc_template Json.dumps Json.loads Url.urlparse Mock.server
            (VInt 5) (VInt 60) no_headers Mock.connected
            (VStr (Mock.endpoint_url +:+ "/queues/{queue_name}"))
            (TypeError "substitution is not a string")
            connected_guards_pass connected_queue_href _)).
  reflexivity.
Defined.

(** From the constructor to the queue [q1]. *)
Lemma connect_then_create_q1 :
  fst (bind (connect Mock.authenticate)
         (fun _ => Mock.create_queue (VStr "q1") (VInt 60) no_headers)
         (fresh Mock.session))
  = Ok (mkQueue (url_of "/queues/q1") (VStr "q1")
          (VDict [("messages", VDict [("ttl", VInt 60)])])).
Proof.
  refine (proj1 (connect_then_create_queue
            Mock.authenticate Misc.proc_template Json.dumps Json.loads
            Url.urlparse Mock.server
            (VStr "client-1") (VStr "http://auth.example/v1") (VStr "user")
            (VStr "key") ∅ Mock.endpoint_url (VStr "token-1") (VStr "q1")
            (VInt 60) no_headers (url_of "/queues/q1")
            _ _ _ _ _ _ _ _ _)).
  - reflexivity.
  - reflexivity.
  - reflexivity.
  - reflexivity.
  - discriminate.
  - left. reflexivity.
  - reflexivity.
  - vm_compute. split; discriminate.
  - reflexivity.
Defined.
